(** * rastertericoh: CUPS raster to Ricoh GDI (PJL + JBIG1) filter

    A shallow embedding of [src/rastertericoh.c] and the properties of its
    specification.

    Conventions of the embedding.
    - C integers are [Z]; the wrap-around of [unsigned int] (32 bits) and
      [size_t] (64 bits, as on the macOS targets of the driver) is written
      out with [wrap32] and [wrap64].
    - Byte buffers are [list Z].  Every access of the C code through a
      pointer is checked against the extent of the buffer it points into;
      an access outside is undefined behaviour in C and is the result
      [Fault] here.
    - [malloc], [calloc] and [realloc] can fail.  Their successive results
      are read from a [heap]: a list of booleans, one per request, an
      exhausted list meaning that every further request succeeds.
    - The raster library and the JBIG codec are external.  A raster page is
      its header together with the results of the successive calls of
      [cupsRasterReadPixels]; the codec is a function giving the chunks it
      passes to its output callback, in call order. *)

From stdpp Require Import base list strings.
From Stdlib Require Import ZArith Lia DecimalString.

Local Open Scope Z_scope.

(** ** Machine integers *)

Definition wrap32 (z : Z) : Z := z mod 2 ^ 32.
Definition wrap64 (z : Z) : Z := z mod 2 ^ 64.

Definition INT_MAX : Z := 2 ^ 31 - 1.

(** Conversion of an [unsigned int] to [int] (two's complement). *)
Definition to_int (z : Z) : Z :=
  if wrap32 z <=? INT_MAX then wrap32 z else wrap32 z - 2 ^ 32.

(** ** Outcomes: a value, or undefined behaviour *)

Inductive outcome (A : Type) : Type :=
| Done (a : A)
| Fault.
Arguments Done {A} a.
Arguments Fault {A}.

#[global] Instance outcome_ret : MRet outcome := fun _ a => Done a.
#[global] Instance outcome_bind : MBind outcome := fun _ _ f m =>
  match m with
  | Done a => f a
  | Fault => Fault
  end.

(** ** Checked memory accesses *)

Definition byte_at (buf : list Z) (i : Z) : Z :=
  default 0 (buf !! Z.to_nat i).

(** [buf[i]] as an rvalue. *)
Definition load (buf : list Z) (i : Z) : outcome Z :=
  if (0 <=? i) && (i <? Z.of_nat (length buf)) then Done (byte_at buf i)
  else Fault.

(** [buf[i] |= mask]. *)
Definition store_or (buf : list Z) (i : Z) (mask : Z) : outcome (list Z) :=
  if (0 <=? i) && (i <? Z.of_nat (length buf))
  then Done (<[Z.to_nat i := Z.lor (byte_at buf i) mask]> buf)
  else Fault.

(** [memcpy(dst + off, src, n)]: reads [src[0..n)], writes [dst[off..off+n)]. *)
Definition memcpy (dst : list Z) (off : Z) (src : list Z) (n : Z)
  : outcome (list Z) :=
  if (n <=? Z.of_nat (length src)) && (off + n <=? Z.of_nat (length dst))
  then Done (take (Z.to_nat off) dst ++ take (Z.to_nat n) src
               ++ drop (Z.to_nat (off + n)) dst)
  else Fault.

(** [memset(dst + off, c, n)]. *)
Definition memset (dst : list Z) (off : Z) (c : Z) (n : Z)
  : outcome (list Z) :=
  if off + n <=? Z.of_nat (length dst)
  then Done (take (Z.to_nat off) dst ++ replicate (Z.to_nat n) c
               ++ drop (Z.to_nat (off + n)) dst)
  else Fault.

(** ** The allocator *)

Definition heap : Type := list bool.

Definition alloc (h : heap) : bool * heap :=
  match h with
  | [] => (true, [])
  | ok :: h' => (ok, h')
  end.

Definition malloc (size : Z) (h : heap) : bool * heap := alloc h.
Definition calloc (n size : Z) (h : heap) : bool * heap := alloc h.
Definition realloc (size : Z) (h : heap) : bool * heap := alloc h.

(** ** The raster source (libcups, external) *)

(** Values of [cups_cspace_t] in <cups/raster.h>. *)
Definition CUPS_CSPACE_W : Z := 0.
Definition CUPS_CSPACE_K : Z := 3.
Definition CUPS_CSPACE_SW : Z := 18.

(** The fields of [cups_page_header2_t] the filter reads. *)
Record cups_page_header2_t : Type := {
  cupsWidth : Z;
  cupsHeight : Z;
  cupsBitsPerPixel : Z;
  cupsColorSpace : Z;
  cupsBytesPerLine : Z;
  cupsPageSizeName : string;
  HWResolution0 : Z;
  MediaPosition : Z
}.

Definition is_uint (z : Z) : Prop := 0 <= z < 2 ^ 32.

(** The numeric fields are [unsigned int]. *)
Record header_wf (h : cups_page_header2_t) : Prop := {
  wf_width : is_uint (cupsWidth h);
  wf_height : is_uint (cupsHeight h);
  wf_bpp : is_uint (cupsBitsPerPixel h);
  wf_cspace : is_uint (cupsColorSpace h);
  wf_bpl : is_uint (cupsBytesPerLine h);
  wf_res : is_uint (HWResolution0 h);
  wf_media : is_uint (MediaPosition h)
}.

(** The pixel data of one page: what each successive call of
    [cupsRasterReadPixels] delivers.  A call past the end delivers
    nothing. *)
Definition cups_raster_t : Type := list (list Z).

(** [cupsRasterReadPixels(ras, line, len)]: the bytes stored into [line],
    whose number is the value returned, and the source afterwards. *)
Definition cupsRasterReadPixels (ras : cups_raster_t) (len : Z)
  : list Z * cups_raster_t :=
  match ras with
  | [] => ([], [])
  | l :: ras' => (l, ras')
  end.

(** ** raster_to_pbm (lines 42-108) *)

(** The test of lines 84-91: whether the pixel value [v] is black. *)
Definition black (header : cups_page_header2_t) (v : Z) : bool :=
  if (cupsColorSpace header =? CUPS_CSPACE_W)
     || (cupsColorSpace header =? CUPS_CSPACE_SW)
  then v <? 128
  else 128 <=? v.

(** The loop of lines 82-95, [n] iterations from pixel [x]; [off] is the
    offset of [dst] in [pbm]. *)
Fixpoint threshold_pixels (n : nat) (header : cups_page_header2_t)
    (line : list Z) (x : Z) (off : Z) (pbm : list Z) : outcome (list Z) :=
  match n with
  | O => Done pbm
  | S n' =>
      v ← load line x;
      pbm' ← (if black header v
              then store_or pbm (off + x / 8) (Z.shiftr 128 (x mod 8))
              else Done pbm);
      threshold_pixels n' header line (x + 1) off pbm'
  end.

(** Lines 70-100: one line of pixels stored into row [y] of [pbm]. *)
Definition convert_line (header : cups_page_header2_t) (pbm_stride : Z)
    (line : list Z) (y : Z) (pbm : list Z) : outcome (list Z) :=
  let width := cupsWidth header in
  let bpl := cupsBytesPerLine header in
  let off := y * pbm_stride in
  if cupsBitsPerPixel header =? 1 then
    memcpy pbm off line pbm_stride
  else if cupsBitsPerPixel header =? 8 then
    pbm0 ← memset pbm off 0 pbm_stride;
    threshold_pixels (Z.to_nat width) header line 0 off pbm0
  else
    memcpy pbm off line (if pbm_stride <? bpl then pbm_stride else bpl).

(** The loop of lines 64-101, [n] iterations from row [y]. *)
Fixpoint read_rows (n : nat) (header : cups_page_header2_t) (pbm_stride : Z)
    (ras : cups_raster_t) (y : Z) (pbm : list Z) : outcome (list Z) :=
  match n with
  | O => Done pbm
  | S n' =>
      let bpl := cupsBytesPerLine header in
      let '(line, ras') := cupsRasterReadPixels ras bpl in
      if negb (Z.of_nat (length line) =? bpl) then
        Done pbm (* short read: break *)
      else
        pbm' ← convert_line header pbm_stride line y pbm;
        read_rows n' header pbm_stride ras' (y + 1) pbm'
  end.

(** What [raster_to_pbm] hands back: the bitmap and the three out
    parameters. *)
Record pbm_page : Type := {
  pbm_data : list Z;
  out_width : Z;
  out_height : Z;
  out_size : Z
}.

Definition pbm_stride_of (header : cups_page_header2_t) : Z :=
  wrap32 (cupsWidth header + 7) / 8.

(** [None] is the [NULL] returned at line 61. *)
Definition raster_to_pbm (header : cups_page_header2_t) (ras : cups_raster_t)
    (h : heap) : outcome (option pbm_page) * heap :=
  let width := cupsWidth header in
  let height := cupsHeight header in
  let bpl := cupsBytesPerLine header in
  let pbm_stride := pbm_stride_of header in
  let pbm_size := wrap64 (pbm_stride * height) in
  let '(pbm_ok, h) := calloc 1 pbm_size h in
  let '(line_ok, h) := malloc bpl h in
  if negb pbm_ok || negb line_ok then (Done None, h)
  else
    (pbm ← read_rows (Z.to_nat height) header pbm_stride ras 0
            (replicate (Z.to_nat pbm_size) 0);
     Done (Some {| pbm_data := pbm; out_width := width;
                   out_height := height; out_size := pbm_size |}),
     h).

(** ** The JBIG output buffer (lines 110-134) *)

(** [data] holds the [size] bytes written so far; the allocation behind it
    is [capacity] bytes long. *)
Record jbig_buffer_t : Type := {
  data : list Z;
  size : Z;
  capacity : Z
}.

(** Lines 121-123: the capacity asked of [realloc] for a chunk of [len]
    bytes that does not fit. *)
Definition grown_capacity (buf : jbig_buffer_t) (len : Z) : Z :=
  let new_cap := wrap64 (capacity buf * 2) in
  if new_cap <? wrap64 (size buf + len)
  then wrap64 (wrap64 (size buf + len) + 65536)
  else new_cap.

(** Lines 132-133, on a buffer of [cap] bytes. *)
Definition append_chunk (buf : jbig_buffer_t) (cap : Z) (start : list Z)
  : outcome jbig_buffer_t :=
  let len := Z.of_nat (length start) in
  if size buf + len <=? cap
  then Done {| data := data buf ++ start;
               size := wrap64 (size buf + len);
               capacity := cap |}
  else Fault.

Definition jbig_data_cb (start : list Z) (buf : jbig_buffer_t) (h : heap)
  : outcome jbig_buffer_t * heap :=
  let len := Z.of_nat (length start) in
  if capacity buf <? wrap64 (size buf + len) then
    let new_cap := grown_capacity buf len in
    let '(ok, h) := realloc new_cap h in
    if negb ok then (Done buf, h) (* line 127: return *)
    else (append_chunk buf new_cap start, h)
  else (append_chunk buf (capacity buf) start, h).

(** ** The JBIG codec (libjbig, external) *)

(** Values of <jbig.h>. *)
Definition JBG_HITOLO : Z := 8.
Definition JBG_SEQ : Z := 4.
Definition JBG_TPBON : Z := 8.

(** The arguments of [jbg_enc_options]. *)
Record jbg_enc_options : Type := {
  jbg_order : Z;
  jbg_options : Z;
  jbg_l0 : Z;
  jbg_mx : Z;
  jbg_my : Z
}.

(** [jbg_enc_out]: the chunks handed to the output callback, in call
    order, for a bitmap, its width and height, and the options. *)
Definition jbg_encoder : Type :=
  list Z -> Z -> Z -> jbg_enc_options -> list (list Z).

(** The successive callback invocations made by [jbg_enc_out]. *)
Fixpoint run_callbacks (chunks : list (list Z)) (buf : jbig_buffer_t)
    (h : heap) : outcome jbig_buffer_t * heap :=
  match chunks with
  | [] => (Done buf, h)
  | start :: chunks' =>
      match jbig_data_cb start buf h with
      | (Done buf', h') => run_callbacks chunks' buf' h'
      | (Fault, h') => (Fault, h')
      end
  end.

(** ** pbm_to_jbig (lines 137-163) *)

(** Lines 143-146: the buffer before the first callback. *)
Definition initial_buffer : jbig_buffer_t :=
  {| data := []; size := 0; capacity := 65536 |}.

(** [None] is the [NULL] of line 147; otherwise the buffer and
    [*out_size]. *)
Definition pbm_to_jbig (enc : jbg_encoder) (pbm : list Z) (width height : Z)
    (h : heap) : outcome (option (list Z * Z)) * heap :=
  let '(ok, h) := malloc (capacity initial_buffer) h in
  if negb ok then (Done None, h)
  else
    let buf := initial_buffer in
    let opts := {| jbg_order := Z.lor JBG_HITOLO JBG_SEQ;
                   jbg_options := JBG_TPBON;
                   jbg_l0 := 72; jbg_mx := 0; jbg_my := 0 |} in
    match run_callbacks (enc pbm width height opts) buf h with
    | (Done buf, h) => (Done (Some (data buf, size buf)), h)
    | (Fault, h) => (Fault, h)
    end.

(** ** cups_to_pjl_paper (lines 166-178) *)

Definition char_code (c : Ascii.ascii) : Z := Z.of_N (Ascii.N_of_ascii c).

(** [tolower] of <ctype.h> in the C locale, on character codes. *)
Definition tolower (c : Z) : Z :=
  if (65 <=? c) && (c <=? 90) then c + 32 else c.

(** [strcasecmp] of <strings.h>: the strings are compared up to their
    terminating NUL, which is the end of the [string] or a NUL character
    in it. *)
Fixpoint strcasecmp (s1 s2 : string) : Z :=
  match s1, s2 with
  | EmptyString, EmptyString => 0
  | EmptyString, String c2 _ => 0 - tolower (char_code c2)
  | String c1 _, EmptyString => tolower (char_code c1) - 0
  | String c1 s1', String c2 s2' =>
      if tolower (char_code c1) =? tolower (char_code c2)
      then (if char_code c1 =? 0 then 0 else strcasecmp s1' s2')
      else tolower (char_code c1) - tolower (char_code c2)
  end.

(** [None] is a [NULL] argument. *)
Definition cups_to_pjl_paper (cups_size : option string) : string :=
  match cups_size with
  | None => "A4"
  | Some cups_size =>
      if strcasecmp cups_size "A4" =? 0 then "A4"
      else if strcasecmp cups_size "Letter" =? 0 then "LETTER"
      else if strcasecmp cups_size "Legal" =? 0 then "LEGAL"
      else if strcasecmp cups_size "A5" =? 0 then "A5"
      else if strcasecmp cups_size "A6" =? 0 then "A6"
      else if strcasecmp cups_size "B5" =? 0 then "B5"
      else if strcasecmp cups_size "B6" =? 0 then "B6"
      else if strcasecmp cups_size "Monarch" =? 0 then "MONARCH"
      else "A4"
  end.

(** ** Standard output *)

(** One entry per call that writes to [stdout]: formatted text, or the raw
    bytes of [fwrite]. *)
Inductive write : Type :=
| Text (s : string)
| Bytes (b : list Z).

Definition CR : string := String (Ascii.ascii_of_nat 13) EmptyString.
Definition LF : string := String (Ascii.ascii_of_nat 10) EmptyString.
Definition ESC : string := String (Ascii.ascii_of_nat 27) EmptyString.

(** Lines 23-31. *)
Definition pjl_printf (s : string) : list write := [Text s; Text CR; Text LF].

(** Lines 34-37. *)
Definition write_bytes (b : list Z) (len : Z) : list write :=
  [Bytes (take (Z.to_nat len) b)].

(** [%u], [%d] and [%zu]. *)
Definition decimal (z : Z) : string := NilZero.string_of_int (Z.to_int z).

(** The bytes of the stream. *)
Definition string_bytes (s : string) : list Z :=
  map char_code (String.list_ascii_of_string s).

Definition write_bytes_of (w : write) : list Z :=
  match w with
  | Text s => string_bytes s
  | Bytes b => b
  end.

Definition stream (out : list write) : list Z :=
  concat (map write_bytes_of out).

(** ** main (lines 180-301) *)

(** Lines 248-256. *)
Definition job_header (timestamp user : string) : list write :=
  [Text (ESC ++ "%-12345X@PJL" ++ CR ++ LF)]
  ++ pjl_printf ("@PJL SET TIMESTAMP=" ++ timestamp)
  ++ pjl_printf "@PJL SET FILENAME=Document"
  ++ pjl_printf "@PJL SET COMPRESS=JBIG"
  ++ pjl_printf ("@PJL SET USERNAME=" ++ user)
  ++ pjl_printf "@PJL SET COVER=OFF"
  ++ pjl_printf "@PJL SET HOLD=OFF".

(** Lines 258-281. *)
Definition page_frame (header : cups_page_header2_t) (width height : Z)
    (jbig : list Z) (jbig_size : Z) : list write :=
  let paper := cups_to_pjl_paper (Some (cupsPageSizeName header)) in
  let resolution := to_int (HWResolution0 header) in
  let mediasource :=
    if MediaPosition header =? 1 then "MANUALFEED" else "TRAY1" in
  pjl_printf "@PJL SET PAGESTATUS=START"
  ++ pjl_printf "@PJL SET COPIES=1"
  ++ pjl_printf ("@PJL SET MEDIASOURCE=" ++ mediasource)
  ++ pjl_printf "@PJL SET MEDIATYPE=PLAINRECYCLE"
  ++ pjl_printf ("@PJL SET PAPER=" ++ paper)
  ++ pjl_printf ("@PJL SET PAPERWIDTH=" ++ decimal width)
  ++ pjl_printf ("@PJL SET PAPERLENGTH=" ++ decimal height)
  ++ pjl_printf ("@PJL SET RESOLUTION=" ++ decimal resolution)
  ++ pjl_printf ("@PJL SET IMAGELEN=" ++ decimal jbig_size)
  ++ write_bytes jbig jbig_size
  ++ pjl_printf "@PJL SET DOTCOUNT=1132782"
  ++ pjl_printf "@PJL SET PAGESTATUS=END".

(** Lines 287-290. *)
Definition job_trailer : list write :=
  pjl_printf "@PJL EOJ" ++ [Text (ESC ++ "%-12345X")].

(** A raster page: its header and its pixel data. *)
Definition page : Type := cups_page_header2_t * cups_raster_t.

(** [page_count++] on an [int]: overflow is undefined. *)
Definition int_incr (n : Z) : outcome Z :=
  if n <? INT_MAX then Done (n + 1) else Fault.

(** The loop of lines 215-284 over the pages [cupsRasterReadHeader2]
    delivers; the result is [page_count] and what was written. *)
Fixpoint process_pages (enc : jbg_encoder) (timestamp user : string)
    (pages : list page) (page_count : Z) (h : heap) (out : list write)
  : outcome (Z * list write) :=
  match pages with
  | [] => Done (page_count, out)
  | (header, ras) :: pages' =>
      if (cupsBytesPerLine header =? 0) || (cupsHeight header =? 0) then
        process_pages enc timestamp user pages' page_count h out
      else
        let '(r, h) := raster_to_pbm header ras h in
        pbm ← r;
        match pbm with
        | None => process_pages enc timestamp user pages' page_count h out
        | Some pbm =>
            let width := out_width pbm in
            let height := out_height pbm in
            let '(r, h) := pbm_to_jbig enc (pbm_data pbm) width height h in
            jbig ← r;
            match jbig with
            | None =>
                process_pages enc timestamp user pages' page_count h out
            | Some (jbig, jbig_size) =>
                let out :=
                  out ++ (if page_count =? 0
                          then job_header timestamp user else [])
                      ++ page_frame header width height jbig jbig_size in
                page_count ← int_incr page_count;
                process_pages enc timestamp user pages' page_count h out
            end
        end
  end.

(** What [cupsRasterOpen] makes of a file descriptor: [None] is [NULL]. *)
Definition raster_input : Type := option (list page).

(** The world one run of the filter sees. *)
Record world : Type := {
  argv : list string;
  (** the result of [open(argv[6], O_RDONLY)]: [None] is a failure *)
  open_argv6 : option raster_input;
  stdin : raster_input;
  (** what [strftime] makes of [time(NULL)] *)
  now : string;
  allocations : heap
}.

Definition argc (w : world) : Z := Z.of_nat (length (argv w)).

(** Line 186. *)
Definition user_name (w : world) : string :=
  if 2 <? argc w then default "" (argv w !! 2%nat) else "unknown".

(** The exit status and what was written to [stdout], for the codec
    [enc] linked into the filter.  Logging is not part of the output and
    is left out. *)
Definition main (enc : jbg_encoder) (w : world) : outcome (Z * list write) :=
  let user := user_name w in
  let fd := if 7 <=? argc w then open_argv6 w else Some (stdin w) in
  match fd with
  | None => Done (1, []) (* line 196 *)
  | Some None => Done (1, []) (* line 205 *)
  | Some (Some pages) =>
      let timestamp := now w in
      '(page_count, out) ←
        process_pages enc timestamp user pages 0 (allocations w) [];
      let out := if 0 <? page_count then out ++ job_trailer else out in
      Done (if 0 <? page_count then 0 else 1, out)
  end.

(** * Notions of the specification *)

(** ** The paper table *)

(** The characters of a C string: those before its terminating NUL. *)
Fixpoint c_chars (s : string) : list Z :=
  match s with
  | EmptyString => []
  | String c s' =>
      if char_code c =? 0 then [] else char_code c :: c_chars s'
  end.

(** A case-insensitive match. *)
Definition same_ignoring_case (s k : string) : Prop :=
  map tolower (c_chars s) = map tolower (c_chars k).

#[global] Instance same_ignoring_case_dec s k :
  Decision (same_ignoring_case s k) :=
  decide (map tolower (c_chars s) = map tolower (c_chars k)).

(** The table of section 4.3. *)
Definition paper_table : list (string * string) :=
  [("A4", "A4"); ("Letter", "LETTER"); ("Legal", "LEGAL"); ("A5", "A5");
   ("A6", "A6"); ("B5", "B5"); ("B6", "B6"); ("Monarch", "MONARCH")].

(** The PAPER value as the specification words it: the output of the row
    whose input matches, [A4] without a match or without a name. *)
Definition paper_of_table (name : option string) : string :=
  match name with
  | None => "A4"
  | Some s =>
      match filter (fun kv => same_ignoring_case s kv.1) paper_table with
      | kv :: _ => kv.2
      | [] => "A4"
      end
  end.

(** ** The canonical bitmap *)

(** The lines the loop of [raster_to_pbm] converts in [n] iterations:
    those read before the first short read. *)
Fixpoint lines_read (n : nat) (bpl : Z) (ras : cups_raster_t)
  : list (list Z) :=
  match n with
  | O => []
  | S n' =>
      let '(line, ras') := cupsRasterReadPixels ras bpl in
      if Z.of_nat (length line) =? bpl
      then line :: lines_read n' bpl ras'
      else []
  end.

(** Byte [i] of a bitmap row, [old] before and [new] after the line
    [line] has been converted into the row. *)
Definition row_byte_ok (header : cups_page_header2_t) (line : list Z)
    (i old new : Z) : Prop :=
  if cupsBitsPerPixel header =? 1 then
    new = byte_at line i
  else if cupsBitsPerPixel header =? 8 then
    forall k, 0 <= k ->
      Z.testbit new k = true
      <-> exists x, 0 <= x < cupsWidth header /\ x / 8 = i
                    /\ k = 7 - x mod 8
                    /\ black header (byte_at line x) = true
  else
    new = if i <? cupsBytesPerLine header then byte_at line i else old.

(** The geometry under which converting a line stays inside the line
    buffer and the bitmap. *)
Definition line_fits (header : cups_page_header2_t) : Prop :=
  if cupsBitsPerPixel header =? 1 then
    pbm_stride_of header <= cupsBytesPerLine header
  else if cupsBitsPerPixel header =? 8 then
    cupsWidth header <= cupsBytesPerLine header
    /\ cupsWidth header + 7 < 2 ^ 32
  else True.

(** Every row is whole: the bitmap is [stride * height] bytes. *)
Definition fully_packed (header : cups_page_header2_t) (pbm : list Z)
  : Prop :=
  Z.of_nat (length pbm) = pbm_stride_of header * cupsHeight header.

(** The padding bits of every row are zero: the bits of the pixel
    positions from the width to the end of the row's last byte. *)
Definition padding_zero (header : cups_page_header2_t) (pbm : list Z)
  : Prop :=
  forall r x,
    0 <= r < cupsHeight header ->
    cupsWidth header <= x < 8 * pbm_stride_of header ->
    Z.testbit (byte_at pbm (r * pbm_stride_of header + x / 8)) (7 - x mod 8)
    = false.

(** A color space in which 0 is black and 255 is white. *)
Definition white_style (cspace : Z) : Prop :=
  cspace = CUPS_CSPACE_W \/ cspace = CUPS_CSPACE_SW.

(** The midpoint threshold of section 4.1: in a K-style color space a
    value of 128 or more is a mark, in a W-style one a value below 128. *)
Definition is_mark (cspace v : Z) : bool :=
  if decide (white_style cspace) then bool_decide (v < 128)
  else bool_decide (128 <= v).

(** ** Sample pages *)

(** A 10 x 2 page of 8-bit gray in the K color space. *)
Definition gray_header : cups_page_header2_t :=
  {| cupsWidth := 10; cupsHeight := 2; cupsBitsPerPixel := 8;
     cupsColorSpace := CUPS_CSPACE_K; cupsBytesPerLine := 10;
     cupsPageSizeName := "Letter"; HWResolution0 := 600;
     MediaPosition := 0 |}.

Definition gray_lines : cups_raster_t :=
  [[0; 127; 128; 255; 0; 0; 0; 0; 200; 200];
   [255; 255; 255; 255; 255; 255; 255; 255; 255; 255]].

(** A 1 x 1 page of 1-bit pixels whose line has its padding bits set. *)
Definition dot_header : cups_page_header2_t :=
  {| cupsWidth := 1; cupsHeight := 1; cupsBitsPerPixel := 1;
     cupsColorSpace := CUPS_CSPACE_K; cupsBytesPerLine := 1;
     cupsPageSizeName := "A4"; HWResolution0 := 600;
     MediaPosition := 0 |}.

Definition dot_lines : cups_raster_t := [[255]].

(** A 16 x 1 page of 1-bit pixels whose lines are one byte long: shorter
    than the two bytes of a bitmap row. *)
Definition short_line_header : cups_page_header2_t :=
  {| cupsWidth := 16; cupsHeight := 1; cupsBitsPerPixel := 1;
     cupsColorSpace := CUPS_CSPACE_K; cupsBytesPerLine := 1;
     cupsPageSizeName := "A4"; HWResolution0 := 600;
     MediaPosition := 0 |}.

(** ** The allocator *)

(** Every request is granted. *)
Definition never_refuses (h : heap) : Prop := Forall (fun ok => ok = true) h.



(** ** The job *)

(** The raster stream a run reads, when it gets to read one. *)
Definition job_input (w : world) : option (list page) :=
  match (if 7 <=? argc w then open_argv6 w else Some (stdin w)) with
  | Some (Some pages) => Some pages
  | _ => None
  end.

(** What the frame of an emitted page is made of. *)
Record emitted_page : Type := {
  ep_header : cups_page_header2_t;
  ep_width : Z;
  ep_height : Z;
  ep_jbig : list Z;
  ep_size : Z
}.

Definition frame_of (ep : emitted_page) : list write :=
  page_frame (ep_header ep) (ep_width ep) (ep_height ep) (ep_jbig ep)
    (ep_size ep).

(** The pages of a stream that are emitted, in order: those that are not
    skipped as empty and for which both the Normalizer and the Compressor
    Adapter return a buffer. *)
Fixpoint emitted_pages (enc : jbg_encoder) (pages : list page) (h : heap)
  : outcome (list emitted_page) :=
  match pages with
  | [] => Done []
  | (header, ras) :: pages' =>
      if (cupsBytesPerLine header =? 0) || (cupsHeight header =? 0) then
        emitted_pages enc pages' h
      else
        match raster_to_pbm header ras h with
        | (Fault, _) => Fault
        | (Done None, h) => emitted_pages enc pages' h
        | (Done (Some pbm), h) =>
            match pbm_to_jbig enc (pbm_data pbm) (out_width pbm)
                    (out_height pbm) h with
            | (Fault, _) => Fault
            | (Done None, h) => emitted_pages enc pages' h
            | (Done (Some (jbig, jbig_size)), h) =>
                eps ← emitted_pages enc pages' h;
                Done ({| ep_header := header; ep_width := out_width pbm;
                         ep_height := out_height pbm; ep_jbig := jbig;
                         ep_size := jbig_size |} :: eps)
            end
        end
  end.

(** The pages a run emits: none when it cannot read its input. *)
Definition emitted (enc : jbg_encoder) (w : world)
  : outcome (list emitted_page) :=
  match job_input w with
  | Some pages => emitted_pages enc pages (allocations w)
  | None => Done []
  end.

(** The stream of a job: nothing without an emitted page; otherwise the
    job header, the frames of the emitted pages in order, and the job
    trailer. *)
Definition job_stream (timestamp user : string) (eps : list emitted_page)
  : list write :=
  match eps with
  | [] => []
  | _ :: _ =>
      job_header timestamp user ++ concat (map frame_of eps) ++ job_trailer
  end.



(** The first write of the job header and the last write of the job
    trailer. *)
Definition header_mark : write := Text (ESC ++ "%-12345X@PJL" ++ CR ++ LF).
Definition trailer_mark : write := Text (ESC ++ "%-12345X").

#[global] Instance write_eq_dec : EqDecision write.
Proof. solve_decision. Defined.

(** How many times a write occurs in a stream. *)
Definition occurrences (x : write) (out : list write) : nat :=
  length (filter (fun y => y = x) out).

(** ** Sample runs *)

(** A stand-in for the codec: it hands the callback the bitmap, then the
    two dimensions. *)
Definition store_encoder : jbg_encoder :=
  fun pbm width height _ => [pbm; [width; height]].

(** A run on the gray page, read from the standard input. *)
Definition gray_world : world :=
  {| argv := ["rastertericoh"; "1"; "alice"; "title"; "1"; "options"];
     open_argv6 := None;
     stdin := Some [(gray_header, gray_lines)];
     now := "2024/01/01 00:00:00";
     allocations := [] |}.

Definition gray_emitted : emitted_page :=
  {| ep_header := gray_header; ep_width := 10; ep_height := 2;
     ep_jbig := [48; 192; 255; 192; 10; 2]; ep_size := 6 |}.

(** An 8 x 2 page of 1-bit pixels of which the source delivers one line
    only: the second read is short. *)
Definition cut_header : cups_page_header2_t :=
  {| cupsWidth := 8; cupsHeight := 2; cupsBitsPerPixel := 1;
     cupsColorSpace := CUPS_CSPACE_K; cupsBytesPerLine := 1;
     cupsPageSizeName := "A4"; HWResolution0 := 600;
     MediaPosition := 0 |}.

Definition cut_lines : cups_raster_t := [[255]].

Definition cut_world : world :=
  {| argv := ["rastertericoh"; "1"; "alice"; "title"; "1"; "options"];
     open_argv6 := None;
     stdin := Some [(cut_header, cut_lines)];
     now := "2024/01/01 00:00:00";
     allocations := [] |}.

(** A codec that hands the callback seventeen chunks of 4000 bytes, chunk
    [i] filled with the value [i], and then a chunk of 1000 bytes filled
    with 18: 69000 bytes in all. *)
Definition chunk_of (i : Z) : list Z := replicate (Z.to_nat 4000) i.

Definition chunky_encoder : jbg_encoder :=
  fun _ _ _ _ => map chunk_of (seqZ 1 17) ++ [replicate (Z.to_nat 1000) 18].

(** A run on the 1 x 1 page in which the three allocations before the
    first callback are granted and the reallocation that follows is
    refused. *)
Definition low_memory_world : world :=
  {| argv := ["rastertericoh"; "1"; "alice"; "title"; "1"; "options"];
     open_argv6 := None;
     stdin := Some [(dot_header, dot_lines)];
     now := "2024/01/01 00:00:00";
     allocations := [true; true; true; false] |}.


(** The run on the gray page in which the first allocation is refused. *)
Definition starved_world : world :=
  {| argv := argv gray_world;
     open_argv6 := open_argv6 gray_world;
     stdin := stdin gray_world;
     now := now gray_world;
     allocations := [false] |}.

(** ** The JBIG output buffer *)

(** What the code relies on between two callbacks: [size] counts the
    bytes of [data], they fit the allocation, and the capacity is a
    [size_t]. *)
Definition buffer_ok (buf : jbig_buffer_t) : Prop :=
  size buf = Z.of_nat (length (data buf))
  /\ size buf <= capacity buf
  /\ capacity buf < 2 ^ 64.

(** ** More sample pages *)

(** A page with no lines, and a run that reads it after a page with no
    bytes per line. *)
Definition flat_header : cups_page_header2_t :=
  {| cupsWidth := 8; cupsHeight := 0; cupsBitsPerPixel := 1;
     cupsColorSpace := CUPS_CSPACE_K; cupsBytesPerLine := 1;
     cupsPageSizeName := "A4"; HWResolution0 := 600;
     MediaPosition := 0 |}.

Definition hollow_header : cups_page_header2_t :=
  {| cupsWidth := 8; cupsHeight := 4; cupsBitsPerPixel := 1;
     cupsColorSpace := CUPS_CSPACE_K; cupsBytesPerLine := 0;
     cupsPageSizeName := "A4"; HWResolution0 := 600;
     MediaPosition := 0 |}.

Definition empty_pages_world : world :=
  {| argv := ["rastertericoh"; "1"; "alice"; "title"; "1"; "options"];
     open_argv6 := None;
     stdin := Some [(hollow_header, [[]; []]); (flat_header, [])];
     now := "2024/01/01 00:00:00";
     allocations := [] |}.

(** ** The bytes that frame a job *)

(** The universal exit language sequence, [ESC %-12345X]. *)
Definition UEL : list Z := [27; 37; 45; 49; 50; 51; 52; 53; 88].

(** [@PJL] and a line end; [@PJL EOJ] and a line end. *)
Definition PJL_LINE : list Z := [64; 80; 74; 76; 13; 10].
Definition EOJ_LINE : list Z := [64; 80; 74; 76; 32; 69; 79; 74; 13; 10].

(** ** Pages in other depths and color spaces *)

(** The header with another color space. *)
Definition with_cspace (header : cups_page_header2_t) (cspace : Z)
  : cups_page_header2_t :=
  {| cupsWidth := cupsWidth header; cupsHeight := cupsHeight header;
     cupsBitsPerPixel := cupsBitsPerPixel header;
     cupsColorSpace := cspace;
     cupsBytesPerLine := cupsBytesPerLine header;
     cupsPageSizeName := cupsPageSizeName header;
     HWResolution0 := HWResolution0 header;
     MediaPosition := MediaPosition header |}.

(** A 16 x 1 page of 4-bit pixels, a depth the filter does not support,
    with lines of 8 bytes. *)
Definition nibble_header : cups_page_header2_t :=
  {| cupsWidth := 16; cupsHeight := 1; cupsBitsPerPixel := 4;
     cupsColorSpace := CUPS_CSPACE_K; cupsBytesPerLine := 8;
     cupsPageSizeName := "A4"; HWResolution0 := 600;
     MediaPosition := 0 |}.

Definition nibble_lines : cups_raster_t := [[1; 2; 3; 4; 5; 6; 7; 8]].

(** A page without columns. *)
Definition thin_header : cups_page_header2_t :=
  {| cupsWidth := 0; cupsHeight := 3; cupsBitsPerPixel := 8;
     cupsColorSpace := CUPS_CSPACE_K; cupsBytesPerLine := 4;
     cupsPageSizeName := "A4"; HWResolution0 := 600;
     MediaPosition := 0 |}.


(** ** The marks of a page frame *)

Definition page_start : write := Text "@PJL SET PAGESTATUS=START".
Definition page_end : write := Text "@PJL SET PAGESTATUS=END".

(** The writes of raw bytes in a stream: the payloads. *)
Definition payloads (out : list write) : list (list Z) :=
  omap (fun x => match x with Bytes b => Some b | Text _ => None end) out.

(** ** The pages one by one *)

(** What one iteration of the loop makes of a page before it writes
    anything (lines 219-242), and the allocator afterwards: [None] when the
    page is skipped as empty or abandoned for a failed allocation,
    otherwise what its frame will be made of. *)
Definition convert_page (enc : jbg_encoder) (p : page) (h : heap)
  : outcome (option emitted_page) * heap :=
  let '(header, ras) := p in
  if (cupsBytesPerLine header =? 0) || (cupsHeight header =? 0) then
    (Done None, h)
  else
    match raster_to_pbm header ras h with
    | (Fault, h) => (Fault, h)
    | (Done None, h) => (Done None, h)
    | (Done (Some pbm), h) =>
        match pbm_to_jbig enc (pbm_data pbm) (out_width pbm)
                (out_height pbm) h with
        | (Fault, h) => (Fault, h)
        | (Done None, h) => (Done None, h)
        | (Done (Some (jbig, jbig_size)), h) =>
            (Done (Some {| ep_header := header; ep_width := out_width pbm;
                           ep_height := out_height pbm; ep_jbig := jbig;
                           ep_size := jbig_size |}), h)
        end
    end.

(** The pages of a stream converted one after the other, each with the
    allocator the pages before it have left: one result per page, in the
    order of the stream. *)
Inductive page_trace (enc : jbg_encoder)
  : list page -> heap -> list (option emitted_page) -> Prop :=
| page_trace_nil (h : heap) : page_trace enc [] h []
| page_trace_cons (p : page) (pages : list page) (h h' : heap)
    (result : option emitted_page) (results : list (option emitted_page)) :
    convert_page enc p h = (Done result, h') ->
    page_trace enc pages h' results ->
    page_trace enc (p :: pages) h (result :: results).

(** * Properties *)

(** Closed comparisons of integers, by evaluation. *)
Ltac evaluate :=
  vm_compute;
  repeat match goal with |- _ /\ _ => split end;
  first [ reflexivity | discriminate | exact I ].

(** ** cups_to_pjl_paper *)

Lemma char_code_range c : 0 <= char_code c < 256.
Proof.
  unfold char_code.
  pose proof (Ascii.N_ascii_bounded c) as Hb. lia.
Qed.

Lemma tolower_zero c : 0 <= c -> (tolower c = 0 <-> c = 0).
Proof. unfold tolower. intros Hc. destruct (_ && _) eqn:E; lia. Qed.

Lemma strcasecmp_zero s k :
  strcasecmp s k = 0 <-> same_ignoring_case s k.
Proof.
  unfold same_ignoring_case.
  revert k. induction s as [|c1 s1 IH]; intros [|c2 s2]; simpl.
  - done.
  - pose proof (char_code_range c2) as R2.
    pose proof (tolower_zero (char_code c2) (proj1 R2)) as T2.
    destruct (Z.eqb_spec (char_code c2) 0) as [E|E]; simpl.
    + split; [done | lia].
    + split; [lia | done].
  - pose proof (char_code_range c1) as R1.
    pose proof (tolower_zero (char_code c1) (proj1 R1)) as T1.
    destruct (Z.eqb_spec (char_code c1) 0) as [E|E]; simpl.
    + split; [done | lia].
    + split; [lia | done].
  - pose proof (char_code_range c1) as R1.
    pose proof (char_code_range c2) as R2.
    pose proof (tolower_zero (char_code c1) (proj1 R1)) as T1.
    pose proof (tolower_zero (char_code c2) (proj1 R2)) as T2.
    destruct (Z.eqb_spec (tolower (char_code c1)) (tolower (char_code c2)))
      as [Et|Et].
    + destruct (Z.eqb_spec (char_code c1) 0) as [E1|E1].
      * destruct (Z.eqb_spec (char_code c2) 0) as [E2|E2]; [done | lia].
      * destruct (Z.eqb_spec (char_code c2) 0) as [E2|E2]; [lia |].
        simpl. rewrite IH. split; [intros ->; by rewrite Et | by intros [=]].
    + destruct (Z.eqb_spec (char_code c1) 0) as [E1|E1];
        destruct (Z.eqb_spec (char_code c2) 0) as [E2|E2]; simpl;
        (split; [lia | try done; try (intros [=]; lia)]).
Qed.

Lemma cups_to_pjl_paper_spec (name : option string) :
  cups_to_pjl_paper name = paper_of_table name.
Proof.
  destruct name as [s|]; [|done].
  unfold cups_to_pjl_paper, paper_of_table, paper_table.
  repeat match goal with
  | |- context [strcasecmp s ?k =? 0] =>
      let E := fresh "E" in
      destruct (Z.eqb_spec (strcasecmp s k) 0) as [E|E];
      rewrite strcasecmp_zero in E;
      [ rewrite filter_cons_True by exact E; reflexivity
      | rewrite filter_cons_False by exact E ]
  end.
  reflexivity.
Qed.

Example paper_of_mixed_case :
  cups_to_pjl_paper (Some "LeTtEr") = "LETTER"
  /\ cups_to_pjl_paper (Some "monarch") = "MONARCH"
  /\ cups_to_pjl_paper (Some "Tabloid") = "A4"
  /\ cups_to_pjl_paper (Some "") = "A4".
Proof. repeat split. Qed.

(** C8.  The PAPER value is the table's: the name is matched without
    regard to case against A4, Letter, Legal, A5, A6, B5, B6 and Monarch,
    and a name that matches none of them, or no name, gives A4; the PAPER
    line of every page frame carries that value for the page's
    paper-size name. *)
Theorem cups_to_pjl_paper_table (name : option string) :
  cups_to_pjl_paper name = paper_of_table name
  /\ forall header width height jbig jbig_size,
       Text ("@PJL SET PAPER="
             ++ paper_of_table (Some (cupsPageSizeName header)))
       ∈ page_frame header width height jbig jbig_size.
Proof.
  split; [apply cups_to_pjl_paper_spec|].
  intros. unfold page_frame. rewrite cups_to_pjl_paper_spec.
  unfold pjl_printf. simpl.
  repeat first [apply list_elem_of_here | apply list_elem_of_further].
Qed.

(** ** The JBIG output buffer *)

(** C7.  The buffer starts with a capacity of 65536 bytes.  A chunk that
    fits leaves the capacity as it is.  For a chunk that does not fit the
    capacity becomes twice the old one, or, where twice the old one is
    still less than the current length plus the chunk length, that sum
    plus 65536. *)
Theorem capacity_growth (buf : jbig_buffer_t) (start : list Z) (h : heap)
    (Hsize : 0 <= size buf <= capacity buf)
    (Hcap : capacity buf * 2 < 2 ^ 64)
    (Hlen : size buf + Z.of_nat (length start) + 65536 < 2 ^ 64)
    (Hrealloc : (alloc h).1 = true) :
  let need := size buf + Z.of_nat (length start) in
  capacity initial_buffer = 65536
  /\ exists buf',
       jbig_data_cb start buf h
       = (Done buf', if need <=? capacity buf then h else (alloc h).2)
       /\ capacity buf'
          = (if need <=? capacity buf then capacity buf
             else if need <=? capacity buf * 2 then capacity buf * 2
             else need + 65536).
Proof.
  intros need. split; [reflexivity|].
  assert (Hneed : wrap64 need = need).
  { unfold wrap64. apply Z.mod_small. subst need. lia. }
  assert (Hdbl : wrap64 (capacity buf * 2) = capacity buf * 2).
  { unfold wrap64. apply Z.mod_small. lia. }
  unfold jbig_data_cb, grown_capacity, realloc, append_chunk.
  fold need. rewrite Hneed, Hdbl.
  destruct (Z.leb_spec need (capacity buf)) as [Hfit|Hfit].
  - destruct (Z.ltb_spec (capacity buf) need); [lia|].
    eexists; split; [reflexivity|reflexivity].
  - destruct (Z.ltb_spec (capacity buf) need); [|lia].
    destruct (alloc h) as [ok h'] eqn:Ea. simpl in Hrealloc. subst ok.
    simpl.
    destruct (Z.leb_spec need (capacity buf * 2)) as [Hd|Hd].
    + destruct (Z.ltb_spec (capacity buf * 2) need); [lia|].
      destruct (Z.leb_spec need (capacity buf * 2)); [|lia].
      eexists; split; reflexivity.
    + destruct (Z.ltb_spec (capacity buf * 2) need); [|lia].
      assert (Hw : wrap64 (need + 65536) = need + 65536).
      { unfold wrap64. apply Z.mod_small. subst need. lia. }
      rewrite Hw.
      destruct (Z.leb_spec need (need + 65536)); [|lia].
      eexists; split; reflexivity.
Qed.

Lemma capacity_growth_witness :
  exists buf',
    jbig_data_cb (replicate (Z.to_nat 70000) 7)
      {| data := [1; 2; 3]; size := 3; capacity := 65536 |} [true]
    = (Done buf', [])
    /\ capacity buf' = 131072.
Proof.
  destruct (capacity_growth
              {| data := [1; 2; 3]; size := 3; capacity := 65536 |}
              (replicate (Z.to_nat 70000) 7) [true]) as [_ [buf' [H1 H2]]].
  - cbn [size capacity]. lia.
  - cbn [size capacity]. lia.
  - rewrite length_replicate. cbn [size capacity]. lia.
  - reflexivity.
  - rewrite length_replicate in H1, H2. exists buf'.
    split; [exact H1 | exact H2].
Defined.

(** ** Memory *)

Lemma byte_at_insert (buf : list Z) (i j v : Z) :
  0 <= i < Z.of_nat (length buf) -> 0 <= j ->
  byte_at (<[Z.to_nat i := v]> buf) j = if j =? i then v else byte_at buf j.
Proof.
  intros Hi Hj. unfold byte_at.
  destruct (Z.eqb_spec j i) as [->|Hne].
  - rewrite list_lookup_insert_eq by lia. reflexivity.
  - rewrite list_lookup_insert_ne by lia. reflexivity.
Qed.

Lemma byte_at_splice (dst mid : list Z) (off n j : Z) :
  0 <= off -> 0 <= n -> off + n <= Z.of_nat (length dst) ->
  Z.of_nat (length mid) = n -> 0 <= j ->
  byte_at (take (Z.to_nat off) dst ++ mid ++ drop (Z.to_nat (off + n)) dst) j
  = if (off <=? j) && (j <? off + n) then byte_at mid (j - off)
    else byte_at dst j.
Proof.
  intros Hoff Hn Hfit Hmid Hj. unfold byte_at.
  destruct (Z.leb_spec off j) as [Hlo|Hlo]; simpl.
  - rewrite lookup_app_r by (rewrite length_take; lia).
    rewrite length_take_le by lia.
    destruct (Z.ltb_spec j (off + n)) as [Hhi|Hhi].
    + rewrite lookup_app_l by lia. do 2 f_equal. lia.
    + rewrite lookup_app_r by lia. rewrite lookup_drop. do 2 f_equal. lia.
  - rewrite lookup_app_l by (rewrite length_take; lia).
    rewrite lookup_take_lt by lia. reflexivity.
Qed.

Lemma length_splice (dst mid : list Z) (off n : Z) :
  0 <= off -> 0 <= n -> off + n <= Z.of_nat (length dst) ->
  Z.of_nat (length mid) = n ->
  length (take (Z.to_nat off) dst ++ mid ++ drop (Z.to_nat (off + n)) dst)
  = length dst.
Proof.
  intros. rewrite !length_app, length_take, length_drop. lia.
Qed.

Lemma byte_at_zeros (n : nat) (j : Z) : byte_at (replicate n 0) j = 0.
Proof.
  unfold byte_at. destruct (replicate n 0 !! Z.to_nat j) as [b|] eqn:E.
  - apply lookup_replicate in E as [-> _]. reflexivity.
  - reflexivity.
Qed.

Lemma byte_at_take (l : list Z) (n : nat) (j : Z) :
  0 <= j < Z.of_nat n -> byte_at (take n l) j = byte_at l j.
Proof.
  intros Hj. unfold byte_at. rewrite lookup_take_lt by lia. reflexivity.
Qed.

(** The mask [0x80 >> s] has the single bit [7 - s]. *)
Lemma mask_bit (s k : Z) :
  0 <= s < 8 -> 0 <= k -> Z.testbit (Z.shiftr 128 s) k = (k =? 7 - s).
Proof.
  intros Hs Hk. rewrite Z.shiftr_spec by lia.
  change 128 with (2 ^ 7). rewrite Z.pow2_bits_eqb by lia.
  destruct (Z.eqb_spec 7 (k + s)), (Z.eqb_spec k (7 - s)); lia.
Qed.

Lemma memcpy_spec (dst src : list Z) (off n : Z) :
  0 <= off -> 0 <= n -> n <= Z.of_nat (length src) ->
  off + n <= Z.of_nat (length dst) ->
  exists dst',
    memcpy dst off src n = Done dst'
    /\ length dst' = length dst
    /\ forall j, 0 <= j ->
         byte_at dst' j = if (off <=? j) && (j <? off + n)
                          then byte_at src (j - off) else byte_at dst j.
Proof.
  intros Hoff Hn Hsrc Hdst. unfold memcpy.
  destruct (Z.leb_spec n (Z.of_nat (length src))); [|lia].
  destruct (Z.leb_spec (off + n) (Z.of_nat (length dst))); [|lia].
  simpl. eexists. split; [reflexivity|].
  assert (Hmid : Z.of_nat (length (take (Z.to_nat n) src)) = n).
  { rewrite length_take. lia. }
  split; [by apply length_splice|].
  intros j Hj. rewrite byte_at_splice by done.
  destruct (Z.leb_spec off j), (Z.ltb_spec j (off + n)); simpl; try done.
  apply byte_at_take. lia.
Qed.

Lemma memset_spec (dst : list Z) (off c n : Z) :
  0 <= off -> 0 <= n -> off + n <= Z.of_nat (length dst) ->
  exists dst',
    memset dst off c n = Done dst'
    /\ length dst' = length dst
    /\ forall j, 0 <= j ->
         byte_at dst' j = if (off <=? j) && (j <? off + n)
                          then c else byte_at dst j.
Proof.
  intros Hoff Hn Hdst. unfold memset.
  destruct (Z.leb_spec (off + n) (Z.of_nat (length dst))); [|lia].
  eexists. split; [reflexivity|].
  assert (Hmid : Z.of_nat (length (replicate (Z.to_nat n) c)) = n).
  { rewrite length_replicate. lia. }
  split; [by apply length_splice|].
  intros j Hj. rewrite byte_at_splice by done.
  destruct (Z.leb_spec off j), (Z.ltb_spec j (off + n)); simpl; try done.
  unfold byte_at. rewrite lookup_replicate_2 by lia. reflexivity.
Qed.

(** ** raster_to_pbm *)

Lemma store_or_spec (buf : list Z) (i mask : Z) :
  0 <= i < Z.of_nat (length buf) ->
  exists buf',
    store_or buf i mask = Done buf'
    /\ length buf' = length buf
    /\ forall j, 0 <= j ->
         byte_at buf' j
         = if j =? i then Z.lor (byte_at buf i) mask else byte_at buf j.
Proof.
  intros Hi. unfold store_or.
  destruct (Z.leb_spec 0 i); [|lia].
  destruct (Z.ltb_spec i (Z.of_nat (length buf))); [|lia].
  eexists. split; [reflexivity|]. split; [apply length_insert|].
  intros j Hj. by apply byte_at_insert.
Qed.

(** The pixel loop sets, and only sets, the bits of the black pixels. *)
Lemma threshold_pixels_spec (header : cups_page_header2_t) (line : list Z)
    (off : Z) (n : nat) :
  forall (x : Z) (pbm : list Z),
    0 <= x -> 0 <= off ->
    x + Z.of_nat n <= Z.of_nat (length line) ->
    (forall px, x <= px < x + Z.of_nat n ->
                off + px / 8 < Z.of_nat (length pbm)) ->
    exists pbm',
      threshold_pixels n header line x off pbm = Done pbm'
      /\ length pbm' = length pbm
      /\ forall j k, 0 <= j -> 0 <= k ->
           (Z.testbit (byte_at pbm' j) k = true
            <-> Z.testbit (byte_at pbm j) k = true
                \/ exists px, x <= px < x + Z.of_nat n /\ j = off + px / 8
                              /\ k = 7 - px mod 8
                              /\ black header (byte_at line px) = true).
Proof.
  induction n as [|n IH]; intros x pbm Hx Hoff Hline Hpbm.
  - exists pbm. split; [reflexivity|]. split; [reflexivity|].
    intros j k _ _. split; [by left|].
    intros [Hold|(px & Hpx & _)]; [done|lia].
  - cbn [threshold_pixels]. unfold load.
    destruct (Z.leb_spec 0 x); [|lia].
    destruct (Z.ltb_spec x (Z.of_nat (length line))); [|lia].
    cbn [andb mbind outcome_bind].
    assert (Hdiv : 0 <= x / 8) by (apply Z.div_pos; lia).
    assert (Hmod : 0 <= x mod 8 < 8) by (apply Z.mod_pos_bound; lia).
    assert (Hstep : exists pbm1,
      (if black header (byte_at line x)
       then store_or pbm (off + x / 8) (Z.shiftr 128 (x mod 8))
       else Done pbm) = Done pbm1
      /\ length pbm1 = length pbm
      /\ forall j k, 0 <= j -> 0 <= k ->
           (Z.testbit (byte_at pbm1 j) k = true
            <-> Z.testbit (byte_at pbm j) k = true
                \/ (j = off + x / 8 /\ k = 7 - x mod 8
                    /\ black header (byte_at line x) = true))).
    { destruct (black header (byte_at line x)) eqn:Eb.
      - destruct (store_or_spec pbm (off + x / 8) (Z.shiftr 128 (x mod 8)))
          as (pbm1 & E1 & L1 & B1).
        { specialize (Hpbm x). lia. }
        exists pbm1. split; [exact E1|]. split; [exact L1|].
        intros j k Hj Hk. rewrite B1 by done.
        destruct (Z.eqb_spec j (off + x / 8)) as [->|Hne].
        + rewrite Z.lor_spec, mask_bit by done.
          rewrite orb_true_iff, Z.eqb_eq. intuition (try congruence; try lia).
        + intuition (try congruence; try lia).
      - exists pbm. split; [reflexivity|]. split; [reflexivity|].
        intros j k _ _. intuition (try congruence; try lia). }
    destruct Hstep as (pbm1 & E1 & L1 & B1). rewrite E1.
    cbn [mbind outcome_bind].
    destruct (IH (x + 1) pbm1) as (pbm' & E' & L' & B'); [lia|lia|lia| |].
    { intros px Hpx. rewrite L1. apply Hpbm. lia. }
    exists pbm'. split; [exact E'|]. split; [congruence|].
    intros j k Hj Hk. rewrite B', B1 by done. split.
    + intros [[Hold|(-> & -> & Hnew)]|(px & Hpx & Hnew)].
      * by left.
      * right. exists x. split; [lia|done].
      * right. exists px. split; [lia|done].
    + intros [Hold|(px & Hpx & Hj' & Hk' & Hb)]; [by left; left|].
      destruct (Z.eq_dec px x) as [->|Hne].
      * left; right. done.
      * right. exists px. split; [lia|done].
Qed.

Lemma pbm_stride_nonneg (header : cups_page_header2_t) :
  0 <= pbm_stride_of header.
Proof.
  unfold pbm_stride_of, wrap32. apply Z.div_pos; [|lia].
  apply Z.mod_pos_bound. lia.
Qed.

Lemma pbm_stride_covers (header : cups_page_header2_t) :
  0 <= cupsWidth header -> cupsWidth header + 7 < 2 ^ 32 ->
  pbm_stride_of header = (cupsWidth header + 7) / 8
  /\ cupsWidth header <= 8 * pbm_stride_of header.
Proof.
  intros H0 H1. unfold pbm_stride_of, wrap32.
  rewrite Z.mod_small by lia. split; [reflexivity|].
  pose proof (Z.div_mod (cupsWidth header + 7) 8 ltac:(lia)).
  pose proof (Z.mod_pos_bound (cupsWidth header + 7) 8 ltac:(lia)).
  lia.
Qed.

(** One line converted into row [y]: the row's bytes are the converted
    ones and no other byte changes. *)
Lemma convert_line_spec (header : cups_page_header2_t) (line : list Z)
    (y : Z) (pbm : list Z) :
  let stride := pbm_stride_of header in
  header_wf header -> line_fits header ->
  Z.of_nat (length line) = cupsBytesPerLine header ->
  0 <= y -> (y + 1) * stride <= Z.of_nat (length pbm) ->
  exists pbm',
    convert_line header stride line y pbm = Done pbm'
    /\ length pbm' = length pbm
    /\ (forall i, 0 <= i < stride ->
          row_byte_ok header line i (byte_at pbm (y * stride + i))
            (byte_at pbm' (y * stride + i)))
    /\ (forall j, 0 <= j -> ~ (y * stride <= j < (y + 1) * stride) ->
          byte_at pbm' j = byte_at pbm j).
Proof.
  intros stride Hwf Hfit Hlen Hy Hroom.
  pose proof (pbm_stride_nonneg header) as Hs. fold stride in Hs.
  assert (Hoff : 0 <= y * stride) by lia.
  assert (Hend : y * stride + stride <= Z.of_nat (length pbm)) by lia.
  unfold convert_line, line_fits, row_byte_ok in *.
  destruct (cupsBitsPerPixel header =? 1).
  - (* 1 bit per pixel *)
    fold stride in Hfit.
    destruct (memcpy_spec pbm line (y * stride) stride)
      as (pbm' & E & L & B); [lia..|].
    exists pbm'. split; [exact E|]. split; [exact L|]. split.
    + intros i Hi. rewrite B by lia.
      destruct (Z.leb_spec (y * stride) (y * stride + i)); [|lia].
      destruct (Z.ltb_spec (y * stride + i) (y * stride + stride)); [|lia].
      simpl. f_equal. lia.
    + intros j Hj Hout. rewrite B by lia.
      destruct (Z.leb_spec (y * stride) j),
        (Z.ltb_spec j (y * stride + stride)); simpl; try done. lia.
  - destruct (cupsBitsPerPixel header =? 8).
    + (* 8 bits per pixel *)
      destruct Hfit as [Hw Hnowrap].
      destruct (pbm_stride_covers header) as [_ Hcov];
        [apply Hwf | done |]. fold stride in Hcov.
      destruct (memset_spec pbm (y * stride) 0 stride)
        as (pbm0 & E0 & L0 & B0); [lia..|].
      rewrite E0. cbn [mbind outcome_bind].
      destruct (threshold_pixels_spec header line (y * stride)
                  (Z.to_nat (cupsWidth header)) 0 pbm0)
        as (pbm' & E & L & B); [lia|lia| | |].
      { pose proof (wf_width _ Hwf) as [? ?]. lia. }
      { intros px Hpx. rewrite L0.
        pose proof (wf_width _ Hwf) as [? ?].
        assert (px / 8 < stride) by (apply Z.div_lt_upper_bound; lia).
        lia. }
      exists pbm'. split; [exact E|]. split; [congruence|].
      pose proof (wf_width _ Hwf) as [Hw0 _].
      split.
      * intros i Hi k Hk. rewrite B by lia. rewrite B0 by lia.
        destruct (Z.leb_spec (y * stride) (y * stride + i)); [|lia].
        destruct (Z.ltb_spec (y * stride + i) (y * stride + stride));
          [|lia].
        simpl. rewrite Z.bits_0. split.
        -- intros [Hold|(px & Hpx & Hj & Hk' & Hb)]; [done|].
           exists px. split; [lia|]. split; [lia|done].
        -- intros (px & Hpx & Hj & Hk' & Hb). right.
           exists px. split; [lia|]. split; [lia|done].
      * intros j Hj Hout.
        assert (Hsame : byte_at pbm0 j = byte_at pbm j).
        { rewrite B0 by lia.
          destruct (Z.leb_spec (y * stride) j),
            (Z.ltb_spec j (y * stride + stride)); simpl; try done. lia. }
        rewrite <- Hsame. apply Z.bits_inj'. intros k Hk.
        apply eq_true_iff_eq. rewrite B by lia. split; [|by left].
        intros [Hold|(px & Hpx & Hj' & _)]; [done|].
        exfalso. apply Hout.
        assert (0 <= px / 8) by (apply Z.div_pos; lia).
        assert (px / 8 < stride) by (apply Z.div_lt_upper_bound; lia).
        lia.
    + (* any other depth *)
      set (n := if stride <? cupsBytesPerLine header then stride
                else cupsBytesPerLine header).
      assert (Hn : 0 <= n <= stride /\ n <= cupsBytesPerLine header).
      { pose proof (wf_bpl _ Hwf) as [? ?]. subst n.
        destruct (Z.ltb_spec stride (cupsBytesPerLine header)); lia. }
      destruct (memcpy_spec pbm line (y * stride) n)
        as (pbm' & E & L & B); [lia..|].
      exists pbm'. split; [exact E|]. split; [exact L|]. split.
      * intros i Hi. rewrite B by lia.
        destruct (Z.leb_spec (y * stride) (y * stride + i)); [|lia].
        simpl. subst n.
        destruct (Z.ltb_spec stride (cupsBytesPerLine header)).
        -- destruct (Z.ltb_spec (y * stride + i) (y * stride + stride));
             [|lia].
           destruct (Z.ltb_spec i (cupsBytesPerLine header)); [|lia].
           f_equal. lia.
        -- destruct (Z.ltb_spec (y * stride + i)
                       (y * stride + cupsBytesPerLine header)),
             (Z.ltb_spec i (cupsBytesPerLine header)); try lia; try done.
           f_equal. lia.
      * intros j Hj Hout. rewrite B by lia.
        destruct (Z.leb_spec (y * stride) j),
          (Z.ltb_spec j (y * stride + n)); simpl; try done. lia.
Qed.

(** The row loop: the rows of the lines read are the converted ones and
    no other byte changes. *)
Lemma read_rows_spec (header : cups_page_header2_t) (n : nat) :
  let stride := pbm_stride_of header in
  let bpl := cupsBytesPerLine header in
  header_wf header -> line_fits header ->
  forall (ras : cups_raster_t) (y : Z) (pbm : list Z),
    0 <= y -> (y + Z.of_nat n) * stride <= Z.of_nat (length pbm) ->
    exists pbm',
      read_rows n header stride ras y pbm = Done pbm'
      /\ length pbm' = length pbm
      /\ (forall (r : nat) line i,
            lines_read n bpl ras !! r = Some line -> 0 <= i < stride ->
            row_byte_ok header line i
              (byte_at pbm ((y + Z.of_nat r) * stride + i))
              (byte_at pbm' ((y + Z.of_nat r) * stride + i)))
      /\ (forall j, 0 <= j ->
            ~ (y * stride <= j
               < (y + Z.of_nat (length (lines_read n bpl ras))) * stride) ->
            byte_at pbm' j = byte_at pbm j).
Proof.
  intros stride bpl Hwf Hfit.
  pose proof (pbm_stride_nonneg header) as Hs. fold stride in Hs.
  induction n as [|n IH]; intros ras y pbm Hy Hroom.
  - exists pbm. split; [reflexivity|]. split; [reflexivity|].
    split; [|done]. intros r line i Hr. by destruct r.
  - cbn [read_rows lines_read]. fold bpl.
    destruct (cupsRasterReadPixels ras bpl) as [line ras'] eqn:Eread.
    destruct (Z.eqb_spec (Z.of_nat (length line)) bpl) as [Hlen|Hshort];
      cbn [negb].
    + destruct (convert_line_spec header line y pbm)
        as (pbm1 & E1 & L1 & Row1 & Out1); [done|done|done|done|nia|].
      fold stride in E1, Row1, Out1. rewrite E1.
      cbn [mbind outcome_bind].
      destruct (IH ras' (y + 1) pbm1) as (pbm' & E' & L' & Row' & Out');
        [lia | rewrite L1; nia |].
      exists pbm'. split; [exact E'|]. split; [congruence|]. split.
      * intros r ln i Hr Hi. destruct r as [|r]; simpl in Hr.
        -- injection Hr as <-.
           replace ((y + Z.of_nat 0) * stride + i) with (y * stride + i)
             by lia.
           rewrite Out' by nia. by apply Row1.
        -- replace ((y + Z.of_nat (S r)) * stride + i)
             with ((y + 1 + Z.of_nat r) * stride + i) by lia.
           rewrite <- (Out1 ((y + 1 + Z.of_nat r) * stride + i)) by nia.
           by apply Row'.
      * intros j Hj Hout. cbn [length] in Hout.
        rewrite Out'; [apply Out1; [done|nia] | done | nia].
    + exists pbm. split; [reflexivity|]. split; [reflexivity|].
      split; [|done]. intros r ln i Hr. by destruct r.
Qed.

Lemma pbm_size_exact (header : cups_page_header2_t) :
  header_wf header ->
  wrap64 (pbm_stride_of header * cupsHeight header)
  = pbm_stride_of header * cupsHeight header
  /\ 0 <= pbm_stride_of header * cupsHeight header.
Proof.
  intros Hwf. pose proof (pbm_stride_nonneg header) as Hs.
  pose proof (wf_height _ Hwf) as [Hh0 Hh1].
  assert (Hlt : pbm_stride_of header < 2 ^ 32).
  { unfold pbm_stride_of, wrap32.
    pose proof (Z.mod_pos_bound (cupsWidth header + 7) (2 ^ 32) ltac:(lia)).
    apply Z.div_lt_upper_bound; lia. }
  unfold wrap64. split; [apply Z.mod_small|]; nia.
Qed.

(** An allocation that fails gives [NULL]. *)
Lemma raster_to_pbm_null (header : cups_page_header2_t)
    (ras : cups_raster_t) (h : heap) :
  (alloc h).1 = false \/ (alloc (alloc h).2).1 = false ->
  raster_to_pbm header ras h = (Done None, (alloc (alloc h).2).2).
Proof.
  intros Hfail. unfold raster_to_pbm, calloc, malloc.
  destruct (alloc h) as [ok1 h1]. cbn [fst snd] in *.
  destruct (alloc h1) as [ok2 h2]. cbn [fst snd] in *.
  destruct Hfail as [-> | ->]; [reflexivity|].
  rewrite orb_true_r. reflexivity.
Qed.

(** With both allocations granted, the bitmap is [stride * height] bytes,
    the rows of the lines read are the converted ones and every byte after
    them is zero. *)
Lemma raster_to_pbm_spec (header : cups_page_header2_t)
    (ras : cups_raster_t) (h : heap) :
  let stride := pbm_stride_of header in
  let lines := lines_read (Z.to_nat (cupsHeight header))
                 (cupsBytesPerLine header) ras in
  header_wf header -> line_fits header ->
  (alloc h).1 = true -> (alloc (alloc h).2).1 = true ->
  exists pbm,
    raster_to_pbm header ras h
    = (Done (Some {| pbm_data := pbm; out_width := cupsWidth header;
                     out_height := cupsHeight header;
                     out_size := stride * cupsHeight header |}),
       (alloc (alloc h).2).2)
    /\ Z.of_nat (length pbm) = stride * cupsHeight header
    /\ (forall (r : nat) line i,
          lines !! r = Some line -> 0 <= i < stride ->
          row_byte_ok header line i 0
            (byte_at pbm (Z.of_nat r * stride + i)))
    /\ (forall j, Z.of_nat (length lines) * stride <= j ->
          byte_at pbm j = 0).
Proof.
  intros stride lines Hwf Hfit Hok1 Hok2.
  destruct (pbm_size_exact header Hwf) as [Hsize Hsize0].
  fold stride in Hsize, Hsize0.
  pose proof (pbm_stride_nonneg header) as Hs. fold stride in Hs.
  pose proof (wf_height _ Hwf) as [Hh0 _].
  unfold raster_to_pbm, calloc, malloc. fold stride. rewrite Hsize.
  destruct (alloc h) as [ok1 h1]. cbn [fst snd] in *.
  destruct (alloc h1) as [ok2 h2]. cbn [fst snd] in *.
  subst ok1 ok2. cbn [negb orb].
  destruct (read_rows_spec header (Z.to_nat (cupsHeight header)) Hwf Hfit
              ras 0 (replicate (Z.to_nat (stride * cupsHeight header)) 0))
    as (pbm & E & L & Rows & Out).
  { lia. }
  { rewrite length_replicate. fold stride. lia. }
  fold stride in E, Rows, Out. fold lines in Rows, Out.
  rewrite E. cbn [mbind outcome_bind]. exists pbm.
  split; [reflexivity|].
  split; [rewrite L, length_replicate; lia|]. split.
  - intros r line i Hr Hi.
    specialize (Rows r line i Hr Hi).
    rewrite byte_at_zeros in Rows.
    replace (Z.of_nat r * stride + i) with ((0 + Z.of_nat r) * stride + i)
      by lia.
    exact Rows.
  - intros j Hj. rewrite Out; [apply byte_at_zeros | nia | lia].
Qed.

Lemma lines_read_length (n : nat) (bpl : Z) (ras : cups_raster_t) :
  (length (lines_read n bpl ras) <= n)%nat.
Proof.
  revert ras. induction n as [|n IH]; intros ras; simpl; [lia|].
  destruct (cupsRasterReadPixels ras bpl) as [line ras'].
  destruct (Z.of_nat (length line) =? bpl); simpl; [|lia].
  specialize (IH ras'). lia.
Qed.

Lemma black_is_mark (header : cups_page_header2_t) (v : Z) :
  black header v = is_mark (cupsColorSpace header) v.
Proof.
  unfold black, is_mark, white_style.
  assert (Hlt : (v <? 128) = bool_decide (v < 128)).
  { destruct (Z.ltb_spec v 128); symmetry;
      [apply bool_decide_eq_true_2 | apply bool_decide_eq_false_2]; lia. }
  assert (Hle : (128 <=? v) = bool_decide (128 <= v)).
  { destruct (Z.leb_spec 128 v); symmetry;
      [apply bool_decide_eq_true_2 | apply bool_decide_eq_false_2]; lia. }
  destruct (decide _) as [Hd|Hd].
  - replace ((cupsColorSpace header =? CUPS_CSPACE_W)
             || (cupsColorSpace header =? CUPS_CSPACE_SW)) with true;
      [exact Hlt|].
    symmetry. apply orb_true_iff. rewrite !Z.eqb_eq. exact Hd.
  - replace ((cupsColorSpace header =? CUPS_CSPACE_W)
             || (cupsColorSpace header =? CUPS_CSPACE_SW)) with false;
      [exact Hle|].
    symmetry. apply orb_false_iff. rewrite !Z.eqb_neq. tauto.
Qed.

(** Two pixels of the same byte and the same bit are the same pixel. *)
Lemma pixel_position (x x' : Z) :
  x' / 8 = x / 8 -> 7 - x mod 8 = 7 - x' mod 8 -> x' = x.
Proof.
  intros Hd Hm.
  pose proof (Z.div_mod x 8 ltac:(lia)).
  pose proof (Z.div_mod x' 8 ltac:(lia)). lia.
Qed.

Lemma threshold_row_bit (header : cups_page_header2_t) (line : list Z)
    (old new x : Z) :
  cupsBitsPerPixel header = 8 ->
  0 <= x ->
  row_byte_ok header line (x / 8) old new ->
  Z.testbit new (7 - x mod 8)
  = bool_decide (x < cupsWidth header) && black header (byte_at line x).
Proof.
  intros Hbpp Hx Hrow. unfold row_byte_ok in Hrow. rewrite Hbpp in Hrow.
  cbn in Hrow.
  pose proof (Z.mod_pos_bound x 8 ltac:(lia)) as Hmod.
  specialize (Hrow (7 - x mod 8) ltac:(lia)).
  apply eq_true_iff_eq. rewrite Hrow, andb_true_iff, bool_decide_eq_true.
  split.
  - intros (x' & Hx' & Hd & Hm & Hb).
    apply pixel_position in Hm; [|done]. subst x'. split; [lia|done].
  - intros [Hw Hb]. exists x. split; [lia|done].
Qed.

(** C6.  On an 8-bit page whose lines hold its pixels, the bitmap exists
    and, for every line read, the bit of pixel [x] is bit [7 - x mod 8]
    (most significant first) of byte [x / 8] of the row, set exactly when
    the pixel is a mark: in a K-style color space when its value is 128 or
    more, so 127 is no mark and 128 is one; in a W-style color space when
    its value is below 128, so 127 is a mark and 128 is none. *)
Theorem threshold_classification (header : cups_page_header2_t)
    (ras : cups_raster_t) (h : heap)
    (Hwf : header_wf header)
    (Hbpp : cupsBitsPerPixel header = 8)
    (Hline : cupsWidth header <= cupsBytesPerLine header)
    (Hwidth : cupsWidth header + 7 < 2 ^ 32)
    (Hpbm : (alloc h).1 = true)
    (Hbuf : (alloc (alloc h).2).1 = true) :
  (exists page,
     (raster_to_pbm header ras h).1 = Done (Some page)
     /\ forall (r : nat) line x,
          lines_read (Z.to_nat (cupsHeight header))
            (cupsBytesPerLine header) ras !! r = Some line ->
          0 <= x < cupsWidth header ->
          Z.testbit
            (byte_at (pbm_data page)
               (Z.of_nat r * pbm_stride_of header + x / 8))
            (7 - x mod 8)
          = is_mark (cupsColorSpace header) (byte_at line x))
  /\ (forall cspace, ~ white_style cspace ->
        is_mark cspace 127 = false /\ is_mark cspace 128 = true)
  /\ (forall cspace, white_style cspace ->
        is_mark cspace 127 = true /\ is_mark cspace 128 = false).
Proof.
  assert (Hfit : line_fits header).
  { unfold line_fits. rewrite Hbpp. cbn. done. }
  split; [|split].
  - destruct (raster_to_pbm_spec header ras h Hwf Hfit Hpbm Hbuf)
      as (pbm & E & L & Rows & _).
    eexists. rewrite E. split; [reflexivity|]. cbn [pbm_data].
    intros r line x Hr Hx.
    destruct (pbm_stride_covers header) as [_ Hcov]; [lia|done|].
    assert (Hi : 0 <= x / 8 < pbm_stride_of header).
    { split; [apply Z.div_pos; lia | apply Z.div_lt_upper_bound; lia]. }
    rewrite (threshold_row_bit header line 0 _ x Hbpp ltac:(lia)
               (Rows r line (x / 8) Hr Hi)).
    rewrite bool_decide_eq_true_2 by lia. apply black_is_mark.
  - intros cspace Hk. unfold is_mark.
    destruct (decide (white_style cspace)); done.
  - intros cspace Hw. unfold is_mark.
    destruct (decide (white_style cspace)); done.
Qed.

Lemma gray_header_wf : header_wf gray_header.
Proof. constructor; evaluate. Qed.

Lemma dot_header_wf : header_wf dot_header.
Proof. constructor; evaluate. Qed.

Lemma threshold_classification_witness :
  exists page,
    (raster_to_pbm gray_header gray_lines []).1 = Done (Some page)
    /\ Z.testbit (byte_at (pbm_data page) 0) 6 = false
    /\ Z.testbit (byte_at (pbm_data page) 0) 5 = true.
Proof.
  destruct (threshold_classification gray_header gray_lines [])
    as [(page & E & B) _].
  - exact gray_header_wf.
  - reflexivity.
  - evaluate.
  - evaluate.
  - reflexivity.
  - reflexivity.
  - exists page. split; [exact E|]. split.
    + apply (B 0%nat [0; 127; 128; 255; 0; 0; 0; 0; 200; 200] 1);
        [reflexivity | evaluate].
    + apply (B 0%nat [0; 127; 128; 255; 0; 0; 0; 0; 200; 200] 2);
        [reflexivity | evaluate].
Defined.

(** C3, as stated, fails on a 1-bit page: the row is the line as it
    was read, padding bits included. *)
Lemma padding_copied_from_line :
  (raster_to_pbm dot_header dot_lines []).1
  = Done (Some {| pbm_data := [255]; out_width := 1; out_height := 1;
                  out_size := 1 |})
  /\ ~ padding_zero dot_header [255].
Proof.
  split; [reflexivity|].
  intros Hpad.
  assert (Hbit : Z.testbit
                   (byte_at [255] (0 * pbm_stride_of dot_header + 1 / 8))
                   (7 - 1 mod 8) = false)
    by (apply Hpad; evaluate).
  vm_compute in Hbit. discriminate Hbit.
Qed.

(** C3, amended.  Every bitmap the Normalizer produces is fully packed:
    [stride * height] bytes.  On an 8-bit page the padding bits at the end
    of every row are zero.  On a 1-bit page the bytes of a row are those of
    the line read, whatever its padding bits are. *)
Theorem rows_packed (header : cups_page_header2_t)
    (ras : cups_raster_t) (h : heap)
    (Hwf : header_wf header)
    (Hfit : line_fits header)
    (Hpbm : (alloc h).1 = true)
    (Hbuf : (alloc (alloc h).2).1 = true) :
  exists page,
    (raster_to_pbm header ras h).1 = Done (Some page)
    /\ fully_packed header (pbm_data page)
    /\ (cupsBitsPerPixel header = 8 -> padding_zero header (pbm_data page))
    /\ (cupsBitsPerPixel header = 1 ->
        forall (r : nat) line i,
          lines_read (Z.to_nat (cupsHeight header))
            (cupsBytesPerLine header) ras !! r = Some line ->
          0 <= i < pbm_stride_of header ->
          byte_at (pbm_data page) (Z.of_nat r * pbm_stride_of header + i)
          = byte_at line i).
Proof.
  destruct (raster_to_pbm_spec header ras h Hwf Hfit Hpbm Hbuf)
    as (pbm & E & L & Rows & Rest).
  eexists. rewrite E. split; [reflexivity|]. cbn [pbm_data].
  split; [exact L|]. split.
  - intros Hbpp r x Hr Hx.
    pose proof (wf_width _ Hwf) as [Hw0 _].
    assert (Hi : 0 <= x / 8 < pbm_stride_of header).
    { split; [apply Z.div_pos; lia | apply Z.div_lt_upper_bound; lia]. }
    destruct (lines_read (Z.to_nat (cupsHeight header))
                (cupsBytesPerLine header) ras !! Z.to_nat r)
      as [line|] eqn:Er.
    + specialize (Rows (Z.to_nat r) line (x / 8) Er Hi).
      replace (Z.of_nat (Z.to_nat r)) with r in Rows by lia.
      rewrite (threshold_row_bit header line 0 _ x Hbpp ltac:(lia) Rows).
      rewrite bool_decide_eq_false_2 by lia. reflexivity.
    + apply lookup_ge_None in Er. rewrite Rest; [apply Z.bits_0|nia].
  - intros Hbpp r line i Hr Hi.
    specialize (Rows r line i Hr Hi). unfold row_byte_ok in Rows.
    rewrite Hbpp in Rows. exact Rows.
Qed.

Lemma rows_packed_witness :
  exists page,
    (raster_to_pbm gray_header gray_lines []).1 = Done (Some page)
    /\ fully_packed gray_header (pbm_data page)
    /\ padding_zero gray_header (pbm_data page).
Proof.
  destruct (rows_packed gray_header gray_lines [])
    as (page & E & P & Z8 & _).
  - exact gray_header_wf.
  - evaluate.
  - reflexivity.
  - reflexivity.
  - exists page. split; [exact E|]. split; [exact P|].
    apply Z8. reflexivity.
Defined.

(** Under [line_fits] the conversion has a defined result, whatever the
    allocator does. *)
Lemma raster_to_pbm_defined (header : cups_page_header2_t)
    (ras : cups_raster_t) (h : heap) :
  header_wf header -> line_fits header ->
  exists o, raster_to_pbm header ras h = (Done o, (alloc (alloc h).2).2).
Proof.
  intros Hwf Hfit.
  destruct (alloc h).1 eqn:E1; [destruct (alloc (alloc h).2).1 eqn:E2|].
  - destruct (raster_to_pbm_spec header ras h Hwf Hfit E1 E2)
      as (pbm & E & _).
    eexists. exact E.
  - exists None. apply raster_to_pbm_null. by right.
  - exists None. apply raster_to_pbm_null. by left.
Qed.

Lemma pbm_stride_le_ceil (header : cups_page_header2_t) :
  0 <= cupsWidth header ->
  pbm_stride_of header <= (cupsWidth header + 7) / 8.
Proof.
  intros Hw. unfold pbm_stride_of, wrap32.
  apply Z.div_le_mono; [lia|]. apply Z.mod_le; lia.
Qed.

(** C10.  On a 1-bit page with [cupsBytesPerLine >= ceil(cupsWidth / 8)],
    the [ceil(width / 8)] bytes copied per row are all inside the line
    buffer of [cupsBytesPerLine] bytes: each index read is a defined load,
    the copy of a line is defined and so is the whole conversion.  The
    code does not check the precondition: on a 16-pixel-wide page with
    1-byte lines the copy reads outside the line buffer.  The path of the
    unsupported depths copies the smaller of the two strides and is defined
    without the precondition. *)
Theorem one_bit_copy_in_bounds (header : cups_page_header2_t)
    (ras : cups_raster_t) (h : heap)
    (Hwf : header_wf header)
    (Hbpp : cupsBitsPerPixel header = 1)
    (Hpre : (cupsWidth header + 7) / 8 <= cupsBytesPerLine header) :
  (forall line i,
     Z.of_nat (length line) = cupsBytesPerLine header ->
     0 <= i < pbm_stride_of header ->
     load line i = Done (byte_at line i))
  /\ (forall line y pbm,
        Z.of_nat (length line) = cupsBytesPerLine header ->
        0 <= y ->
        (y + 1) * pbm_stride_of header <= Z.of_nat (length pbm) ->
        exists pbm',
          convert_line header (pbm_stride_of header) line y pbm
          = Done pbm')
  /\ (exists o, (raster_to_pbm header ras h).1 = Done o)
  /\ (raster_to_pbm short_line_header [[0]] []).1 = Fault
  /\ (forall header' ras' h',
        header_wf header' ->
        cupsBitsPerPixel header' <> 1 -> cupsBitsPerPixel header' <> 8 ->
        exists o, (raster_to_pbm header' ras' h').1 = Done o).
Proof.
  pose proof (wf_width _ Hwf) as [Hw0 _].
  pose proof (pbm_stride_le_ceil header Hw0) as Hle.
  assert (Hfit : line_fits header).
  { unfold line_fits. rewrite Hbpp. cbn. lia. }
  split; [|split; [|split; [|split]]].
  - intros line i Hlen Hi. unfold load.
    destruct (Z.leb_spec 0 i); [|lia].
    destruct (Z.ltb_spec i (Z.of_nat (length line))); [|lia].
    reflexivity.
  - intros line y pbm Hlen Hy Hroom.
    destruct (convert_line_spec header line y pbm Hwf Hfit Hlen Hy Hroom)
      as (pbm' & E & _).
    exists pbm'. exact E.
  - destruct (raster_to_pbm_defined header ras h Hwf Hfit) as [o E].
    exists o. by rewrite E.
  - reflexivity.
  - intros header' ras' h' Hwf' Hn1 Hn8.
    assert (Hfit' : line_fits header').
    { unfold line_fits.
      destruct (Z.eqb_spec (cupsBitsPerPixel header') 1); [done|].
      destruct (Z.eqb_spec (cupsBitsPerPixel header') 8); done. }
    destruct (raster_to_pbm_defined header' ras' h' Hwf' Hfit') as [o E].
    exists o. by rewrite E.
Qed.

Lemma one_bit_copy_in_bounds_witness :
  load [255] 0 = Done 255
  /\ exists o, (raster_to_pbm dot_header dot_lines []).1 = Done o.
Proof.
  destruct (one_bit_copy_in_bounds dot_header dot_lines [])
    as (Hload & _ & Hdone & _).
  - exact dot_header_wf.
  - reflexivity.
  - evaluate.
  - split; [|exact Hdone].
    apply (Hload [255] 0); [reflexivity | evaluate].
Defined.

(** ** The page loop *)

(** The loop emits the frames of the emitted pages, the job header
    before the first of them when none was emitted before; it is undefined
    exactly when a conversion is, or when the page counter overflows. *)
Lemma process_pages_emitted (enc : jbg_encoder) (timestamp user : string)
    (pages : list page) :
  forall (page_count : Z) (h : heap) (out : list write),
    0 <= page_count <= INT_MAX ->
    process_pages enc timestamp user pages page_count h out
    = match emitted_pages enc pages h with
      | Fault => Fault
      | Done eps =>
          if page_count + Z.of_nat (length eps) <=? INT_MAX
          then Done (page_count + Z.of_nat (length eps),
                     out ++ (if (page_count =? 0)
                                && negb (bool_decide (eps = []))
                             then job_header timestamp user else [])
                         ++ concat (map frame_of eps))
          else Fault
      end.
Proof.
  induction pages as [|[header ras] pages IH]; intros pc h out Hpc.
  - cbn [process_pages emitted_pages length].
    destruct (Z.leb_spec (pc + Z.of_nat 0) INT_MAX) as [Hle|Hgt]; [|lia].
    rewrite andb_false_r. cbn. rewrite app_nil_r. do 2 f_equal. lia.
  - cbn [process_pages emitted_pages].
    destruct ((cupsBytesPerLine header =? 0) || (cupsHeight header =? 0));
      [by apply IH|].
    destruct (raster_to_pbm header ras h) as [[[pbm|]|] h1];
      cbn [mbind outcome_bind]; [|by apply IH|done].
    destruct (pbm_to_jbig enc (pbm_data pbm) (out_width pbm)
                (out_height pbm) h1) as [[[[jbig jbig_size]|]|] h2];
      cbn [mbind outcome_bind]; [|by apply IH|done].
    unfold int_incr.
    destruct (Z.ltb_spec pc INT_MAX) as [Hlt|Hge]; cbn [mbind outcome_bind].
    + rewrite IH by lia.
      destruct (emitted_pages enc pages h2) as [eps|];
        cbn [mbind outcome_bind]; [|done].
      cbn [length]. rewrite Nat2Z.inj_succ.
      replace (pc + 1 + Z.of_nat (length eps))
        with (pc + Z.succ (Z.of_nat (length eps))) by lia.
      destruct (_ <=? INT_MAX); [|done].
      destruct (Z.eqb_spec (pc + 1) 0) as [E0|_]; [lia|].
      cbn [andb]. rewrite bool_decide_eq_false_2 by done. cbn [negb].
      rewrite andb_true_r. cbn [map concat]. fold (frame_of
        {| ep_header := header; ep_width := out_width pbm;
           ep_height := out_height pbm; ep_jbig := jbig;
           ep_size := jbig_size |}).
      unfold frame_of at 2. cbn [ep_header ep_width ep_height ep_jbig ep_size].
      rewrite <- !app_assoc. reflexivity.
    + destruct (emitted_pages enc pages h2) as [eps|];
        cbn [mbind outcome_bind]; [|done].
      cbn [length]. rewrite Nat2Z.inj_succ.
      destruct (Z.leb_spec (pc + Z.succ (Z.of_nat (length eps))) INT_MAX);
        [lia|done].
Qed.

(** ** main *)

(** A run is its emitted pages, framed. *)
Lemma main_spec (enc : jbg_encoder) (w : world) :
  main enc w
  = match emitted enc w with
    | Fault => Fault
    | Done eps =>
        if Z.of_nat (length eps) <=? INT_MAX
        then Done (if bool_decide (eps = []) then 1 else 0,
                   job_stream (now w) (user_name w) eps)
        else Fault
    end.
Proof.
  unfold main, emitted, job_input.
  destruct (if 7 <=? argc w then open_argv6 w else Some (stdin w))
    as [[pages|]|]; [|reflexivity..].
  rewrite process_pages_emitted by (unfold INT_MAX; lia).
  destruct (emitted_pages enc pages (allocations w)) as [eps|]; [|done].
  cbn [Z.add]. destruct (_ <=? INT_MAX); [|done].
  cbn [mbind outcome_bind]. destruct eps as [|ep eps]; [reflexivity|].
  cbn [length]. rewrite Nat2Z.inj_succ.
  destruct (Z.ltb_spec 0 (0 + Z.succ (Z.of_nat (length eps)))); [|lia].
  rewrite bool_decide_eq_false_2 by done.
  cbn [Z.eqb andb negb app job_stream]. rewrite <- !app_assoc. reflexivity.
Qed.

Lemma occurrences_app (x : write) (l1 l2 : list write) :
  occurrences x (l1 ++ l2) = (occurrences x l1 + occurrences x l2)%nat.
Proof. unfold occurrences. by rewrite filter_app, length_app. Qed.

Lemma occurrences_absent (x : write) (l : list write) :
  Forall (fun y => y <> x) l -> occurrences x l = 0%nat.
Proof.
  unfold occurrences. induction 1 as [|y l Hy _ IH]; [reflexivity|].
  by rewrite filter_cons_False.
Qed.

Lemma page_frame_no_mark (x : write) (ep : emitted_page) :
  x = header_mark \/ x = trailer_mark ->
  occurrences x (frame_of ep) = 0%nat.
Proof. intros [-> | ->]; reflexivity. Qed.

Lemma frames_no_mark (x : write) (eps : list emitted_page) :
  x = header_mark \/ x = trailer_mark ->
  occurrences x (concat (map frame_of eps)) = 0%nat.
Proof.
  intros Hx. induction eps as [|ep eps IH]; [reflexivity|].
  cbn [map concat]. rewrite occurrences_app, IH.
  by rewrite page_frame_no_mark.
Qed.

Lemma job_header_marks (timestamp user : string) :
  occurrences header_mark (job_header timestamp user) = 1%nat
  /\ occurrences trailer_mark (job_header timestamp user) = 0%nat.
Proof. split; reflexivity. Qed.

Lemma job_trailer_marks :
  occurrences header_mark job_trailer = 0%nat
  /\ occurrences trailer_mark job_trailer = 1%nat.
Proof. split; reflexivity. Qed.

(** Each mark occurs once in the stream of a job with an emitted page and
    not at all in the stream of a job without one. *)
Lemma job_stream_marks (timestamp user : string) (eps : list emitted_page)
    (x : write) :
  x = header_mark \/ x = trailer_mark ->
  occurrences x (job_stream timestamp user eps)
  = if bool_decide (eps = []) then 0%nat else 1%nat.
Proof.
  intros Hx. destruct eps as [|ep eps]; [reflexivity|].
  rewrite bool_decide_eq_false_2 by done.
  unfold job_stream. rewrite !occurrences_app, frames_no_mark by done.
  destruct (job_header_marks timestamp user) as [H1 H2].
  destruct job_trailer_marks as [T1 T2].
  destruct Hx as [-> | ->]; [rewrite H1, T1 | rewrite H2, T2]; reflexivity.
Qed.

Lemma gray_world_emitted :
  emitted store_encoder gray_world = Done [gray_emitted].
Proof. reflexivity. Qed.

(** C4.  The stream of a run is empty when no page is emitted; when one
    is, it is the job header, then the frames of the emitted pages in
    order, then the job trailer.  So the job header, whose first write
    occurs nowhere else, appears exactly once when a page is emitted,
    before the first frame, and not at all otherwise; and so does the job
    trailer, whose last write occurs nowhere else, after the last frame. *)
Theorem job_envelope (enc : jbg_encoder) (w : world)
    (eps : list emitted_page)
    (Hdef : emitted enc w = Done eps)
    (Hcount : Z.of_nat (length eps) <= INT_MAX) :
  exists status out,
    main enc w = Done (status, out)
    /\ out = match eps with
             | [] => []
             | _ :: _ =>
                 job_header (now w) (user_name w)
                 ++ concat (map frame_of eps) ++ job_trailer
             end
    /\ occurrences header_mark out
       = (if bool_decide (eps = []) then 0%nat else 1%nat)
    /\ occurrences trailer_mark out
       = (if bool_decide (eps = []) then 0%nat else 1%nat)
    /\ occurrences header_mark (concat (map frame_of eps)) = 0%nat
    /\ occurrences trailer_mark (concat (map frame_of eps)) = 0%nat.
Proof.
  rewrite main_spec, Hdef.
  destruct (Z.leb_spec (Z.of_nat (length eps)) INT_MAX); [|lia].
  eexists _, _. split; [reflexivity|]. split; [reflexivity|].
  split; [apply job_stream_marks; by left|].
  split; [apply job_stream_marks; by right|].
  split; apply frames_no_mark; [by left | by right].
Qed.

Lemma job_envelope_witness :
  exists status,
    main store_encoder gray_world
    = Done (status,
            job_header "2024/01/01 00:00:00" "alice"
            ++ frame_of gray_emitted ++ job_trailer).
Proof.
  destruct (job_envelope store_encoder gray_world [gray_emitted])
    as (status & out & E & -> & _).
  - exact gray_world_emitted.
  - evaluate.
  - exists status. exact E.
Defined.

(** C5.  The exit status is 0 when at least one page is emitted and 1
    when none is; it is 1, with nothing written, when the input file
    cannot be opened and when the raster stream cannot be opened. *)
Theorem exit_status (enc : jbg_encoder) (w : world)
    (eps : list emitted_page)
    (Hdef : emitted enc w = Done eps)
    (Hcount : Z.of_nat (length eps) <= INT_MAX) :
  (exists out,
     main enc w = Done (if bool_decide (eps = []) then 1 else 0, out))
  /\ (7 <= argc w -> open_argv6 w = None -> main enc w = Done (1, []))
  /\ ((if 7 <=? argc w then open_argv6 w else Some (stdin w)) = Some None ->
      main enc w = Done (1, [])).
Proof.
  split; [|split].
  - rewrite main_spec, Hdef.
    destruct (Z.leb_spec (Z.of_nat (length eps)) INT_MAX); [|lia].
    eexists. reflexivity.
  - intros Hargc Hopen. unfold main.
    destruct (Z.leb_spec 7 (argc w)); [|lia]. by rewrite Hopen.
  - intros Hras. unfold main. by rewrite Hras.
Qed.

Lemma exit_status_witness :
  exists out, main store_encoder gray_world = Done (0, out).
Proof.
  destruct (exit_status store_encoder gray_world [gray_emitted])
    as [Hstatus _].
  - exact gray_world_emitted.
  - evaluate.
  - exact Hstatus.
Defined.

(** ** Short reads *)

(** C2, as stated, fails: of the two lines of the page one is read, and
    the page is emitted all the same, its second row zero, with exit
    status 0. *)
Lemma short_read_page_emitted :
  lines_read 2 1 cut_lines = [[255]]
  /\ main store_encoder cut_world
     = Done (0, job_header "2024/01/01 00:00:00" "alice"
                ++ page_frame cut_header 8 2 [255; 0; 8; 2] 4
                ++ job_trailer)
  /\ ~ (exists status, main store_encoder cut_world = Done (status, [])).
Proof.
  split; [reflexivity|]. split; [reflexivity|].
  intros [status E]. vm_compute in E. discriminate E.
Qed.

(** C2, amended.  When a line is read short, filling stops: the rows of
    the lines read before are the converted ones and every later row stays
    zero.  The bitmap is returned as after a complete read, not [NULL];
    once it is compressed, the loop emits the frame of the page, the job
    header first if the page is the first emitted, counts it, and goes on
    to the next page. *)
Theorem short_read_keeps_page (header : cups_page_header2_t)
    (ras : cups_raster_t) (h : heap)
    (Hwf : header_wf header)
    (Hfit : line_fits header)
    (Hpbm : (alloc h).1 = true)
    (Hbuf : (alloc (alloc h).2).1 = true)
    (Hshort : Z.of_nat (length (lines_read (Z.to_nat (cupsHeight header))
                                  (cupsBytesPerLine header) ras))
              < cupsHeight header) :
  let lines := lines_read (Z.to_nat (cupsHeight header))
                 (cupsBytesPerLine header) ras in
  let stride := pbm_stride_of header in
  exists pbm,
    raster_to_pbm header ras h
    = (Done (Some {| pbm_data := pbm; out_width := cupsWidth header;
                     out_height := cupsHeight header;
                     out_size := stride * cupsHeight header |}),
       (alloc (alloc h).2).2)
    /\ fully_packed header pbm
    /\ (forall (r : nat) line i,
          lines !! r = Some line -> 0 <= i < stride ->
          row_byte_ok header line i 0
            (byte_at pbm (Z.of_nat r * stride + i)))
    /\ (forall r i,
          Z.of_nat (length lines) <= r < cupsHeight header ->
          0 <= i < stride ->
          byte_at pbm (r * stride + i) = 0)
    /\ (forall enc timestamp user pages page_count out jbig jbig_size h',
          cupsBytesPerLine header <> 0 -> cupsHeight header <> 0 ->
          pbm_to_jbig enc pbm (cupsWidth header) (cupsHeight header)
            (alloc (alloc h).2).2
          = (Done (Some (jbig, jbig_size)), h') ->
          process_pages enc timestamp user ((header, ras) :: pages)
            page_count h out
          = (page_count' ← int_incr page_count;
             process_pages enc timestamp user pages page_count' h'
               (out ++ (if page_count =? 0
                        then job_header timestamp user else [])
                    ++ page_frame header (cupsWidth header)
                         (cupsHeight header) jbig jbig_size))).
Proof.
  intros lines stride.
  destruct (raster_to_pbm_spec header ras h Hwf Hfit Hpbm Hbuf)
    as (pbm & E & L & Rows & Rest).
  exists pbm. split; [exact E|]. split; [exact L|]. split; [exact Rows|].
  split.
  - intros r i Hr Hi. apply Rest. fold lines stride. nia.
  - intros enc timestamp user pages pc out jbig jbig_size h' Hbpl Hh Hjbig.
    cbn [process_pages].
    destruct (Z.eqb_spec (cupsBytesPerLine header) 0); [done|].
    destruct (Z.eqb_spec (cupsHeight header) 0); [done|].
    cbn [orb]. rewrite E. cbn [mbind outcome_bind pbm_data out_width
                                out_height].
    rewrite Hjbig. reflexivity.
Qed.

Lemma cut_header_wf : header_wf cut_header.
Proof. constructor; evaluate. Qed.

Lemma short_read_keeps_page_witness :
  exists pbm,
    raster_to_pbm cut_header cut_lines []
    = (Done (Some {| pbm_data := pbm; out_width := 8; out_height := 2;
                     out_size := 2 |}), [])
    /\ byte_at pbm 1 = 0.
Proof.
  destruct (short_read_keeps_page cut_header cut_lines [])
    as (pbm & E & _ & _ & Hzero & _).
  - exact cut_header_wf.
  - evaluate.
  - reflexivity.
  - reflexivity.
  - evaluate.
  - exists pbm. split; [exact E|].
    apply (Hzero 1 0); evaluate.
Defined.

(** ** The compressed payload *)

(** A chunk that does not fit is dropped when the reallocation fails: the
    callback returns with the buffer as it was. *)
Lemma jbig_data_cb_dropped (start : list Z) (buf : jbig_buffer_t)
    (h : heap) :
  capacity buf < wrap64 (size buf + Z.of_nat (length start)) ->
  (alloc h).1 = false ->
  jbig_data_cb start buf h = (Done buf, (alloc h).2).
Proof.
  intros Hbig Hfail. unfold jbig_data_cb, realloc.
  destruct (Z.ltb_spec (capacity buf)
              (wrap64 (size buf + Z.of_nat (length start)))); [|lia].
  destruct (alloc h) as [ok h']. cbn [fst snd] in *. by subst ok.
Qed.

(** A chunk that fits is appended, and the allocator is left alone. *)
Lemma jbig_data_cb_fits (start : list Z) (buf : jbig_buffer_t) (h : heap) :
  0 <= size buf ->
  size buf + Z.of_nat (length start) <= capacity buf ->
  capacity buf < 2 ^ 64 ->
  jbig_data_cb start buf h
  = (Done {| data := data buf ++ start;
             size := size buf + Z.of_nat (length start);
             capacity := capacity buf |}, h).
Proof.
  intros Hsize Hfit Hcap. unfold jbig_data_cb, append_chunk.
  assert (Hw : wrap64 (size buf + Z.of_nat (length start))
               = size buf + Z.of_nat (length start)).
  { unfold wrap64. apply Z.mod_small. lia. }
  rewrite Hw.
  destruct (Z.ltb_spec (capacity buf)
              (size buf + Z.of_nat (length start))); [lia|].
  destruct (Z.leb_spec (size buf + Z.of_nat (length start))
              (capacity buf)); [|lia].
  reflexivity.
Qed.

Lemma run_callbacks_app (chunks1 chunks2 : list (list Z)) :
  forall (buf : jbig_buffer_t) (h : heap),
    run_callbacks (chunks1 ++ chunks2) buf h
    = match run_callbacks chunks1 buf h with
      | (Done buf', h') => run_callbacks chunks2 buf' h'
      | (Fault, h') => (Fault, h')
      end.
Proof.
  induction chunks1 as [|start chunks1 IH]; intros buf h; [reflexivity|].
  cbn [app run_callbacks].
  destruct (jbig_data_cb start buf h) as [[buf'|] h']; [apply IH|done].
Qed.

(** Chunks that fit together are accumulated in call order. *)
Lemma run_callbacks_fit (chunks : list (list Z)) :
  forall (buf : jbig_buffer_t) (h : heap),
    0 <= size buf ->
    size buf + Z.of_nat (length (concat chunks)) <= capacity buf ->
    capacity buf < 2 ^ 64 ->
    run_callbacks chunks buf h
    = (Done {| data := data buf ++ concat chunks;
               size := size buf + Z.of_nat (length (concat chunks));
               capacity := capacity buf |}, h).
Proof.
  induction chunks as [|start chunks IH]; intros buf h Hsize Hfit Hcap.
  - cbn [run_callbacks concat length]. rewrite app_nil_r, Z.add_0_r.
    by destruct buf.
  - cbn [run_callbacks concat] in *. rewrite length_app in Hfit.
    rewrite jbig_data_cb_fits by lia.
    rewrite IH by (cbn [size capacity]; lia).
    cbn [data size capacity]. rewrite length_app, <- app_assoc.
    do 3 f_equal. lia.
Qed.

Lemma chunky_payload (pbm : list Z) (width height : Z) :
  pbm_to_jbig chunky_encoder pbm width height [true; false]
  = (Done (Some (concat (map chunk_of (seqZ 1 16))
                 ++ replicate (Z.to_nat 1000) 18, 65000)), []).
Proof.
  unfold pbm_to_jbig, malloc. cbn [alloc negb].
  change (chunky_encoder _ _ _ _)
    with (map chunk_of (seqZ 1 16)
          ++ [chunk_of 17; replicate (Z.to_nat 1000) 18]).
  rewrite run_callbacks_app.
  rewrite run_callbacks_fit by evaluate.
  cbn [run_callbacks].
  rewrite jbig_data_cb_dropped by evaluate.
  cbn [alloc snd].
  rewrite jbig_data_cb_fits by evaluate.
  cbn [data size capacity initial_buffer app].
  do 3 f_equal.
Qed.


Lemma alloc_granted (h : heap) :
  never_refuses h -> (alloc h).1 = true /\ never_refuses (alloc h).2.
Proof.
  intros Hh. destruct Hh as [|ok h Hok Hh]; cbn; [|done].
  split; [reflexivity | apply Forall_nil_2].
Qed.

(** With every reallocation granted, the callbacks accumulate all the
    chunks in call order. *)
Lemma run_callbacks_granted (chunks : list (list Z)) :
  forall (buf : jbig_buffer_t) (h : heap),
    let total := size buf + Z.of_nat (length (concat chunks)) in
    never_refuses h ->
    0 <= size buf <= capacity buf ->
    capacity buf <= 2 * total + 65536 ->
    2 * total + 65536 < 2 ^ 64 ->
    exists cap h',
      run_callbacks chunks buf h
      = (Done {| data := data buf ++ concat chunks; size := total;
                 capacity := cap |}, h')
      /\ never_refuses h'.
Proof.
  induction chunks as [|start chunks IH]; intros buf h total Hh Hsize Hcap Hmax.
  - exists (capacity buf), h. split; [|done]. subst total.
    cbn [run_callbacks concat length]. rewrite app_nil_r, Z.add_0_r.
    by destruct buf.
  - cbn [run_callbacks]. subst total. cbn [concat] in *.
    rewrite length_app, Nat2Z.inj_add in *.
    set (len := Z.of_nat (length start)) in *.
    set (rest := Z.of_nat (length (concat chunks))) in *.
    assert (Hstep : exists cap h1,
      jbig_data_cb start buf h
      = (Done {| data := data buf ++ start; size := size buf + len;
                 capacity := cap |}, h1)
      /\ never_refuses h1 /\ size buf + len <= cap
      /\ cap <= 2 * (size buf + (len + rest)) + 65536).
    { destruct (Z.le_gt_cases (size buf + len) (capacity buf)) as [Hfit|Hbig].
      - exists (capacity buf), h. rewrite jbig_data_cb_fits by lia.
        split; [reflexivity|]. split; [done|]. lia.
      - unfold jbig_data_cb, grown_capacity, realloc, append_chunk.
        fold len.
        assert (Hw : wrap64 (size buf + len) = size buf + len).
        { unfold wrap64. apply Z.mod_small. lia. }
        assert (Hd : wrap64 (capacity buf * 2) = capacity buf * 2).
        { unfold wrap64. apply Z.mod_small. lia. }
        assert (Hs : wrap64 (size buf + len + 65536)
                     = size buf + len + 65536).
        { unfold wrap64. apply Z.mod_small. lia. }
        rewrite Hw, Hd, Hs.
        destruct (Z.ltb_spec (capacity buf) (size buf + len)); [|lia].
        destruct (alloc_granted h Hh) as [Hok Hh1].
        destruct (alloc h) as [ok h1]. cbn [fst snd] in *. subst ok.
        cbn [negb].
        destruct (Z.ltb_spec (capacity buf * 2) (size buf + len)).
        + exists (size buf + len + 65536), h1.
          destruct (Z.leb_spec (size buf + len) (size buf + len + 65536));
            [|lia].
          split; [reflexivity|]. split; [done|]. lia.
        + exists (capacity buf * 2), h1.
          destruct (Z.leb_spec (size buf + len) (capacity buf * 2)); [|lia].
          split; [reflexivity|]. split; [done|]. lia. }
    destruct Hstep as (cap & h1 & E1 & Hh1 & Hfit1 & Hcap1). rewrite E1.
    destruct (IH {| data := data buf ++ start; size := size buf + len;
                    capacity := cap |} h1) as (cap' & h' & E' & Hh');
      [done | cbn [size capacity]; lia | cbn [size capacity]; fold rest; lia
      | cbn [size]; fold rest; lia |].
    cbn [data size] in E'. fold rest in E'.
    exists cap', h'. split; [|done]. rewrite E'.
    rewrite <- app_assoc. do 3 f_equal. lia.
Qed.

(** C1 fails on the code.  With every reallocation granted the buffer
    holds all the chunks in call order.  But a chunk that does not fit is
    dropped by the callback when the reallocation fails, and nothing
    records the failure.
    In the run below the codec hands over 69000 bytes in chunks of at most
    4000; the reallocation for the seventeenth chunk is refused; the page
    is emitted, exit status 0, with a payload of 65000 bytes: the first
    sixteen chunks and the eighteenth, without the seventeenth. *)
Theorem realloc_failure_shortens_payload :
  (forall chunks h,
     never_refuses h ->
     2 * Z.of_nat (length (concat chunks)) + 65536 < 2 ^ 64 ->
     exists cap h',
       run_callbacks chunks initial_buffer h
       = (Done {| data := concat chunks;
                  size := Z.of_nat (length (concat chunks));
                  capacity := cap |}, h'))
  /\ (forall start buf h,
     capacity buf < wrap64 (size buf + Z.of_nat (length start)) ->
     (alloc h).1 = false ->
     jbig_data_cb start buf h = (Done buf, (alloc h).2))
  /\ Z.of_nat (length (concat (chunky_encoder [255] 1 1
                                 {| jbg_order := 12; jbg_options := 8;
                                    jbg_l0 := 72; jbg_mx := 0;
                                    jbg_my := 0 |})))
     = 69000
  /\ main chunky_encoder low_memory_world
     = Done (0, job_header "2024/01/01 00:00:00" "alice"
                ++ page_frame dot_header 1 1
                     (concat (map chunk_of (seqZ 1 16))
                      ++ replicate (Z.to_nat 1000) 18)
                     65000
                ++ job_trailer).
Proof.
  split.
  { intros chunks h Hh Hmax.
    destruct (run_callbacks_granted chunks initial_buffer h)
      as (cap & h' & E & _); cbn [size capacity initial_buffer];
      [done | lia | lia | lia |].
    exists cap, h'. exact E. }
  split; [exact jbig_data_cb_dropped|].
  split; [vm_compute; reflexivity|].
  rewrite main_spec. unfold emitted, job_input.
  change (if 7 <=? argc low_memory_world
          then open_argv6 low_memory_world
          else Some (stdin low_memory_world))
    with (Some (Some [(dot_header, dot_lines)])).
  cbn [emitted_pages].
  change (raster_to_pbm dot_header dot_lines (allocations low_memory_world))
    with (Done (Some {| pbm_data := [255]; out_width := 1; out_height := 1;
                        out_size := 1 |}), [true; false]).
  cbn [cupsBytesPerLine cupsHeight dot_header Z.eqb orb pbm_data out_width
       out_height].
  rewrite chunky_payload. cbn [mbind outcome_bind length].
  change (Z.of_nat 1 <=? INT_MAX) with true. cbn iota.
  rewrite bool_decide_eq_false_2 by done.
  unfold job_stream, frame_of. cbn [map concat ep_header ep_width ep_height
                                    ep_jbig ep_size].
  rewrite app_nil_r. reflexivity.
Qed.


(** ** Determinism *)








(** ** Defined runs *)

(** Whatever the allocator does, the callbacks have a defined result as
    long as no size wraps. *)
Lemma run_callbacks_defined (bound : Z) (chunks : list (list Z)) :
  forall (buf : jbig_buffer_t) (h : heap),
    0 <= size buf <= capacity buf ->
    capacity buf <= bound ->
    2 * (size buf + Z.of_nat (length (concat chunks))) + 65536 <= bound ->
    bound < 2 ^ 64 ->
    exists buf' h', run_callbacks chunks buf h = (Done buf', h').
Proof.
  induction chunks as [|start chunks IH]; intros buf h Hsize Hcap Hmax Hb.
  - by exists buf, h.
  - cbn [run_callbacks]. cbn [concat] in Hmax.
    rewrite length_app, Nat2Z.inj_add in Hmax.
    set (len := Z.of_nat (length start)) in *.
    set (rest := Z.of_nat (length (concat chunks))) in *.
    assert (Hstep : exists buf1 h1,
      jbig_data_cb start buf h = (Done buf1, h1)
      /\ 0 <= size buf1 <= capacity buf1 /\ capacity buf1 <= bound
      /\ size buf1 <= size buf + len).
    { destruct (Z.le_gt_cases (size buf + len) (capacity buf)) as [Hfit|Hbig].
      - eexists _, h. rewrite jbig_data_cb_fits by lia.
        split; [reflexivity|]. cbn [size capacity]. fold len. lia.
      - destruct (alloc h).1 eqn:Eok.
        + unfold jbig_data_cb, grown_capacity, realloc, append_chunk.
          fold len.
          assert (Hw : wrap64 (size buf + len) = size buf + len).
          { unfold wrap64. apply Z.mod_small. lia. }
          assert (Hd : wrap64 (capacity buf * 2) = capacity buf * 2).
          { unfold wrap64. apply Z.mod_small. lia. }
          assert (Hs : wrap64 (size buf + len + 65536)
                       = size buf + len + 65536).
          { unfold wrap64. apply Z.mod_small. lia. }
          rewrite Hw, Hd, Hs.
          destruct (Z.ltb_spec (capacity buf) (size buf + len)); [|lia].
          destruct (alloc h) as [ok h1]. cbn [fst] in Eok. subst ok.
          cbn [negb].
          destruct (Z.ltb_spec (capacity buf * 2) (size buf + len)).
          * destruct (Z.leb_spec (size buf + len)
                        (size buf + len + 65536)); [|lia].
            eexists _, h1. split; [reflexivity|]. cbn [size capacity]. lia.
          * destruct (Z.leb_spec (size buf + len) (capacity buf * 2));
              [|lia].
            eexists _, h1. split; [reflexivity|]. cbn [size capacity]. lia.
        + exists buf, (alloc h).2. split; [|lia].
          apply jbig_data_cb_dropped; [|done].
          unfold wrap64. rewrite Z.mod_small by lia. fold len. lia. }
    destruct Hstep as (buf1 & h1 & E1 & Hsize1 & Hcap1 & Hgrow). rewrite E1.
    apply IH; [done | done | fold rest; lia | done].
Qed.




(** ** Determinism of the defined runs *)




(** * Further properties of the code *)

(** ** The buffer between callbacks *)

Lemma wrap64_bound (z : Z) : 0 <= wrap64 z < 2 ^ 64.
Proof. unfold wrap64. apply Z.mod_pos_bound. lia. Qed.

(** One callback: the chunk is appended whole or not at all, and the
    buffer stays consistent. *)
Lemma jbig_data_cb_keeps (start : list Z) (buf buf' : jbig_buffer_t)
    (h h' : heap) :
  buffer_ok buf ->
  jbig_data_cb start buf h = (Done buf', h') ->
  buffer_ok buf'
  /\ capacity buf <= capacity buf'
  /\ (buf' = buf \/ data buf' = data buf ++ start).
Proof.
  intros (Hsize & Hfit & Hcap) E. unfold jbig_data_cb, realloc in E.
  assert (Happend : forall cap,
            capacity buf <= cap -> cap < 2 ^ 64 ->
            append_chunk buf cap start = Done buf' ->
            buffer_ok buf' /\ capacity buf <= capacity buf'
            /\ (buf' = buf \/ data buf' = data buf ++ start)).
  { intros cap Hle Hlt Ea. unfold append_chunk in Ea.
    destruct (Z.leb_spec (size buf + Z.of_nat (length start)) cap);
      [|discriminate Ea].
    injection Ea as <-. cbn [data size capacity].
    assert (Hw : wrap64 (size buf + Z.of_nat (length start))
                 = size buf + Z.of_nat (length start)).
    { unfold wrap64. apply Z.mod_small. lia. }
    rewrite Hw. split; [|split; [lia | by right]].
    unfold buffer_ok. cbn [data size capacity].
    rewrite length_app, Nat2Z.inj_add. lia. }
  destruct (Z.ltb_spec (capacity buf)
              (wrap64 (size buf + Z.of_nat (length start)))) as [Hbig|Hok].
  - destruct (alloc h) as [ok h1]. destruct ok; cbn [negb] in E.
    + injection E as Ea _.
      pose proof (wrap64_bound (capacity buf * 2)) as Hd.
      pose proof (wrap64_bound
                    (wrap64 (size buf + Z.of_nat (length start)) + 65536))
        as Hs.
      assert (Hneed : wrap64 (size buf + Z.of_nat (length start))
                      <= size buf + Z.of_nat (length start)).
      { unfold wrap64. apply Z.mod_le; lia. }
      apply Happend in Ea; [done| |].
      * unfold append_chunk in Ea.
        destruct (Z.leb_spec (size buf + Z.of_nat (length start))
                    (grown_capacity buf (Z.of_nat (length start))));
          [lia|discriminate Ea].
      * unfold grown_capacity. destruct (_ <? _); lia.
    + injection E as <- _. split; [done|]. split; [lia | by left].
  - injection E as Ea _. apply Happend in Ea; [done|lia|done].
Qed.

(** Any number of callbacks: what is buffered is the concatenation of
    some of the chunks, whole and in call order, after what was buffered
    before. *)
Lemma run_callbacks_keeps (chunks : list (list Z)) :
  forall (buf buf' : jbig_buffer_t) (h h' : heap),
    buffer_ok buf ->
    run_callbacks chunks buf h = (Done buf', h') ->
    buffer_ok buf'
    /\ capacity buf <= capacity buf'
    /\ exists kept, kept `sublist_of` chunks
                    /\ data buf' = data buf ++ concat kept.
Proof.
  induction chunks as [|start chunks IH]; intros buf buf' h h' Hok E.
  - cbn [run_callbacks] in E. injection E as <- _.
    split; [done|]. split; [lia|]. exists []. split; [constructor|].
    cbn. by rewrite app_nil_r.
  - cbn [run_callbacks] in E.
    destruct (jbig_data_cb start buf h) as [[buf1|] h1] eqn:E1;
      [|discriminate E].
    destruct (jbig_data_cb_keeps start buf buf1 h h1 Hok E1)
      as (Hok1 & Hcap1 & Hdata1).
    destruct (IH buf1 buf' h1 h' Hok1 E) as (Hok' & Hcap' & kept & Hsub & Hd).
    split; [done|]. split; [lia|].
    destruct Hdata1 as [-> | Hd1].
    + exists kept. split; [by apply sublist_cons | done].
    + exists (start :: kept). split; [by apply sublist_skip|].
      rewrite Hd, Hd1. cbn [concat]. by rewrite <- app_assoc.
Qed.

(** X2.  Whatever the allocator grants or refuses, as long as no size
    wraps, a run of callbacks has a defined result: no write falls outside
    the allocation.  What was buffered before stays in place, followed by
    some of the chunks, each whole and in call order; [size] counts the
    buffered bytes, which fit the capacity, and the capacity never
    shrinks. *)
Theorem callbacks_keep_whole_chunks (chunks : list (list Z))
    (buf : jbig_buffer_t) (h : heap)
    (Hok : buffer_ok buf)
    (Hcap : capacity buf
            <= 2 * (size buf + Z.of_nat (length (concat chunks))) + 65536)
    (Hmax : 2 * (size buf + Z.of_nat (length (concat chunks))) + 65536
            < 2 ^ 64) :
  exists buf' h' kept,
    run_callbacks chunks buf h = (Done buf', h')
    /\ kept `sublist_of` chunks
    /\ data buf' = data buf ++ concat kept
    /\ buffer_ok buf'
    /\ capacity buf <= capacity buf'.
Proof.
  destruct Hok as (Hsize & Hfit & Hlt).
  destruct (run_callbacks_defined
              (2 * (size buf + Z.of_nat (length (concat chunks))) + 65536)
              chunks buf h) as (buf' & h' & E); [lia|lia|lia|lia|].
  destruct (run_callbacks_keeps chunks buf buf' h h') as
    (Hok' & Hcap' & kept & Hsub & Hdata); [done|done|].
  by exists buf', h', kept.
Qed.

Lemma callbacks_keep_whole_chunks_witness :
  exists buf' h' kept,
    run_callbacks [[1; 2]; [3]] initial_buffer [false] = (Done buf', h')
    /\ kept `sublist_of` [[1; 2]; [3]]
    /\ data buf' = [] ++ concat kept
    /\ buffer_ok buf'
    /\ 65536 <= capacity buf'.
Proof.
  apply (callbacks_keep_whole_chunks [[1; 2]; [3]] initial_buffer [false]).
  - evaluate.
  - evaluate.
  - evaluate.
Defined.

(** X1.  The payload [pbm_to_jbig] returns is made of chunks of the codec,
    whole and in call order, and the length returned with it is its number
    of bytes.  So [write_bytes] writes the whole payload, and in the frame
    of the page the IMAGELEN line announces exactly the number of bytes
    that follow it. *)
Theorem payload_length_announced (enc : jbg_encoder) (pbm : list Z)
    (width height : Z) (h h' : heap) (jbig : list Z) (jbig_size : Z)
    (Hjbig : pbm_to_jbig enc pbm width height h
             = (Done (Some (jbig, jbig_size)), h')) :
  jbig_size = Z.of_nat (length jbig)
  /\ (exists kept,
        kept `sublist_of`
          enc pbm width height
            {| jbg_order := Z.lor JBG_HITOLO JBG_SEQ;
               jbg_options := JBG_TPBON;
               jbg_l0 := 72; jbg_mx := 0; jbg_my := 0 |}
        /\ jbig = concat kept)
  /\ write_bytes jbig jbig_size = [Bytes jbig]
  /\ forall header,
       exists pre post,
         page_frame header width height jbig jbig_size
         = pre
           ++ [Text ("@PJL SET IMAGELEN="
                     ++ decimal (Z.of_nat (length jbig)));
               Text CR; Text LF; Bytes jbig]
           ++ post.
Proof.
  unfold pbm_to_jbig, malloc in Hjbig.
  destruct (alloc h) as [ok h1]. destruct ok; cbn [negb] in Hjbig;
    [|discriminate Hjbig].
  match type of Hjbig with
  | context [run_callbacks ?c ?b h1] =>
      destruct (run_callbacks c b h1) as [[buf'|] h2] eqn:E;
      [|discriminate Hjbig];
      destruct (run_callbacks_keeps c b buf' h1 h2) as
        ((Hsize & _) & _ & kept & Hsub & Hdata); [evaluate|exact E|]
  end.
  injection Hjbig as <- <- _. cbn [data initial_buffer app] in Hdata.
  assert (Hwrite : write_bytes (data buf') (size buf') = [Bytes (data buf')]).
  { unfold write_bytes. rewrite Hsize, Nat2Z.id, take_ge by lia. done. }
  split; [exact Hsize|]. split; [by exists kept|]. split; [exact Hwrite|].
  intros header. unfold page_frame. rewrite Hwrite, <- Hsize.
  eexists (pjl_printf _ ++ pjl_printf _ ++ pjl_printf _ ++ pjl_printf _
           ++ pjl_printf _ ++ pjl_printf _ ++ pjl_printf _ ++ pjl_printf _),
    (pjl_printf _ ++ pjl_printf _).
  rewrite <- !app_assoc. reflexivity.
Qed.

Lemma payload_length_announced_witness :
  write_bytes [255; 1; 1] 3 = [Bytes [255; 1; 1]].
Proof.
  destruct (payload_length_announced store_encoder [255] 1 1 [] []
              [255; 1; 1] 3) as (_ & _ & Hwrite & _).
  - reflexivity.
  - exact Hwrite.
Defined.

(** ** The page loop at its edges *)

Lemma emitted_pages_empty (enc : jbg_encoder) (pages : list page) :
  Forall (fun p : page => cupsBytesPerLine p.1 = 0 \/ cupsHeight p.1 = 0)
    pages ->
  forall h, emitted_pages enc pages h = Done [].
Proof.
  induction 1 as [|[header ras] pages Hp _ IH]; intros h; [reflexivity|].
  cbn [emitted_pages]. cbn [fst] in Hp.
  replace ((cupsBytesPerLine header =? 0) || (cupsHeight header =? 0))
    with true; [apply IH|].
  symmetry. apply orb_true_iff. rewrite !Z.eqb_eq. exact Hp.
Qed.

(** X3.  A job none of whose pages has both lines and bytes per line, in
    particular a job without pages, writes nothing and exits with status
    1, whatever the codec and the allocator would do. *)
Theorem empty_pages_write_nothing (enc : jbg_encoder) (w : world)
    (pages : list page)
    (Hinput : job_input w = Some pages)
    (Hempty : Forall (fun p : page =>
                        cupsBytesPerLine p.1 = 0 \/ cupsHeight p.1 = 0)
                pages) :
  main enc w = Done (1, []).
Proof.
  rewrite main_spec. unfold emitted. rewrite Hinput.
  by rewrite emitted_pages_empty.
Qed.

Lemma empty_pages_write_nothing_witness :
  main store_encoder empty_pages_world = Done (1, []).
Proof.
  apply (empty_pages_write_nothing store_encoder empty_pages_world
           [(hollow_header, [[]; []]); (flat_header, [])]).
  - reflexivity.
  - apply Forall_cons_2; [by left|].
    apply Forall_cons_2; [by right|]. apply Forall_nil_2.
Defined.

(** X4.  A page for which an allocation fails leaves no trace: when
    [calloc] or [malloc] fails in [raster_to_pbm], and when the [malloc] of
    [pbm_to_jbig] fails after a conversion, the loop goes on with the next
    page, nothing written and the page counter as it was. *)
Theorem failed_allocation_skips_page (enc : jbg_encoder)
    (timestamp user : string) (header : cups_page_header2_t)
    (ras : cups_raster_t) (pages : list page) (page_count : Z) (h : heap)
    (out : list write)
    (Hbpl : cupsBytesPerLine header <> 0)
    (Hheight : cupsHeight header <> 0) :
  ((alloc h).1 = false \/ (alloc (alloc h).2).1 = false ->
   process_pages enc timestamp user ((header, ras) :: pages) page_count h out
   = process_pages enc timestamp user pages page_count
       (alloc (alloc h).2).2 out)
  /\ (forall pbm h1,
        raster_to_pbm header ras h = (Done (Some pbm), h1) ->
        (alloc h1).1 = false ->
        process_pages enc timestamp user ((header, ras) :: pages)
          page_count h out
        = process_pages enc timestamp user pages page_count (alloc h1).2
            out).
Proof.
  assert (Hgo : (cupsBytesPerLine header =? 0) || (cupsHeight header =? 0)
                = false).
  { apply orb_false_iff. by rewrite !Z.eqb_neq. }
  split.
  - intros Hfail. cbn [process_pages]. rewrite Hgo.
    by rewrite raster_to_pbm_null.
  - intros pbm h1 E Hfail. cbn [process_pages]. rewrite Hgo, E.
    cbn [mbind outcome_bind]. unfold pbm_to_jbig, malloc.
    destruct (alloc h1) as [ok h2]. cbn [fst snd] in *. subst ok.
    reflexivity.
Qed.

Lemma failed_allocation_skips_page_witness :
  process_pages store_encoder "now" "alice"
    [(gray_header, gray_lines); (dot_header, dot_lines)] 0 [true; false] []
  = process_pages store_encoder "now" "alice" [(dot_header, dot_lines)] 0
      [] [].
Proof.
  destruct (failed_allocation_skips_page store_encoder "now" "alice"
              gray_header gray_lines [(dot_header, dot_lines)] 0
              [true; false] []) as [Hskip _].
  - evaluate.
  - evaluate.
  - apply Hskip. right. reflexivity.
Defined.

(** X9.  A run that ends does so with status 0 or 1, and it has written
    nothing exactly when the status is 1. *)
Theorem silent_iff_failure (enc : jbg_encoder) (w : world) (status : Z)
    (out : list write)
    (Hrun : main enc w = Done (status, out)) :
  (status = 0 \/ status = 1) /\ (status = 1 <-> out = []).
Proof.
  rewrite main_spec in Hrun.
  destruct (emitted enc w) as [eps|]; [|discriminate Hrun].
  destruct (_ <=? INT_MAX); [|discriminate Hrun].
  injection Hrun as <- <-. destruct eps as [|ep eps].
  - split; [by right | done].
  - rewrite bool_decide_eq_false_2 by done. split; [by left|].
    split; [discriminate | discriminate].
Qed.

Lemma silent_iff_failure_witness :
  (1 = 0 \/ 1 = 1) /\ (1 = 1 <-> @nil write = []).
Proof.
  apply (silent_iff_failure store_encoder starved_world 1 []).
  reflexivity.
Defined.

(** ** The emitted pages *)

Lemma raster_to_pbm_dims (header : cups_page_header2_t)
    (ras : cups_raster_t) (h h' : heap) (pbm : pbm_page) :
  raster_to_pbm header ras h = (Done (Some pbm), h') ->
  out_width pbm = cupsWidth header /\ out_height pbm = cupsHeight header.
Proof.
  unfold raster_to_pbm, calloc, malloc.
  destruct (alloc h) as [ok1 h1]. destruct (alloc h1) as [ok2 h2].
  destruct (negb ok1 || negb ok2); [discriminate|].
  destruct (read_rows _ _ _ _ _ _) as [rows|]; cbn [mbind outcome_bind];
    [|discriminate].
  intros [= <- _]. done.
Qed.

Lemma initial_buffer_ok : buffer_ok initial_buffer.
Proof. evaluate. Qed.

Lemma pbm_to_jbig_size (enc : jbg_encoder) (pbm : list Z) (width height : Z)
    (h h' : heap) (jbig : list Z) (jbig_size : Z) :
  pbm_to_jbig enc pbm width height h = (Done (Some (jbig, jbig_size)), h') ->
  jbig_size = Z.of_nat (length jbig).
Proof.
  unfold pbm_to_jbig, malloc.
  destruct (alloc h) as [ok h1]. destruct ok; cbn [negb]; [|discriminate].
  destruct (run_callbacks _ _ _) as [[buf'|] h2] eqn:E; [|discriminate].
  destruct (run_callbacks_keeps _ _ _ _ _ initial_buffer_ok E)
    as ((Hsize & _) & _).
  by intros [= <- <- _].
Qed.

(** The emitted pages are pages of the stream, in its order, each with
    lines and bytes per line, with the dimensions of its header and a
    payload of the announced length. *)
Lemma emitted_pages_order (enc : jbg_encoder) (pages : list page) :
  forall (h : heap) (eps : list emitted_page),
    emitted_pages enc pages h = Done eps ->
    map ep_header eps `sublist_of` map fst pages
    /\ Forall (fun ep =>
                 ep_width ep = cupsWidth (ep_header ep)
                 /\ ep_height ep = cupsHeight (ep_header ep)
                 /\ cupsHeight (ep_header ep) <> 0
                 /\ cupsBytesPerLine (ep_header ep) <> 0
                 /\ ep_size ep = Z.of_nat (length (ep_jbig ep))) eps.
Proof.
  induction pages as [|[header ras] pages IH]; intros h eps E.
  - injection E as <-. split; constructor.
  - cbn [emitted_pages map fst] in *.
    assert (Hskip : forall h', emitted_pages enc pages h' = Done eps ->
              map ep_header eps `sublist_of` header :: map fst pages
              /\ Forall (fun ep =>
                   ep_width ep = cupsWidth (ep_header ep)
                   /\ ep_height ep = cupsHeight (ep_header ep)
                   /\ cupsHeight (ep_header ep) <> 0
                   /\ cupsBytesPerLine (ep_header ep) <> 0
                   /\ ep_size ep = Z.of_nat (length (ep_jbig ep))) eps).
    { intros h' E'. destruct (IH h' eps E') as [Hsub Hall].
      split; [by apply sublist_cons | done]. }
    destruct (Z.eqb_spec (cupsBytesPerLine header) 0) as [|Hbpl];
      [cbn [orb] in E; by eapply Hskip|].
    destruct (Z.eqb_spec (cupsHeight header) 0) as [|Hheight];
      [cbn [orb] in E; by eapply Hskip|].
    cbn [orb] in E.
    destruct (raster_to_pbm header ras h) as [[[pbm|]|] h1] eqn:Epbm;
      [|by eapply Hskip|discriminate E].
    destruct (pbm_to_jbig enc (pbm_data pbm) (out_width pbm)
                (out_height pbm) h1) as [[[[jbig jbig_size]|]|] h2]
      eqn:Ejbig; [|by eapply Hskip|discriminate E].
    destruct (emitted_pages enc pages h2) as [eps'|] eqn:Erest;
      cbn [mbind outcome_bind] in E; [|discriminate E].
    injection E as <-.
    destruct (IH h2 eps' Erest) as [Hsub Hall].
    destruct (raster_to_pbm_dims _ _ _ _ _ Epbm) as [Hw Hh].
    split; [cbn [map ep_header]; by apply sublist_skip|].
    apply Forall_cons_2; [|done]. cbn [ep_header ep_width ep_height
                                         ep_jbig ep_size].
    repeat split; try done. by eapply pbm_to_jbig_size.
Qed.

(** The emitted pages are the results of the pages converted one by
    one. *)
Lemma emitted_pages_trace (enc : jbg_encoder) (pages : list page) :
  forall (h : heap) (eps : list emitted_page),
    emitted_pages enc pages h = Done eps ->
    exists results,
      page_trace enc pages h results /\ eps = omap id results.
Proof.
  induction pages as [|[header ras] pages IH]; intros h eps E.
  - injection E as <-. exists []. split; [constructor | reflexivity].
  - cbn [emitted_pages] in E.
    assert (Hskip : forall h',
              convert_page enc (header, ras) h = (Done None, h') ->
              emitted_pages enc pages h' = Done eps ->
              exists results,
                page_trace enc ((header, ras) :: pages) h results
                /\ eps = omap id results).
    { intros h' Ec E'. destruct (IH h' eps E') as (results & Ht & ->).
      exists (None :: results). split; [|reflexivity].
      by eapply page_trace_cons. }
    unfold convert_page in Hskip.
    destruct ((cupsBytesPerLine header =? 0) || (cupsHeight header =? 0))
      eqn:Eskip; [by eapply Hskip|].
    destruct (raster_to_pbm header ras h) as [[[pbm|]|] h1] eqn:Epbm;
      [|by eapply Hskip|discriminate E].
    destruct (pbm_to_jbig enc (pbm_data pbm) (out_width pbm)
                (out_height pbm) h1) as [[[[jbig jbig_size]|]|] h2]
      eqn:Ejbig; [|by eapply Hskip|discriminate E].
    destruct (emitted_pages enc pages h2) as [eps'|] eqn:Erest;
      cbn [mbind outcome_bind] in E; [|discriminate E].
    injection E as <-.
    destruct (IH h2 eps' Erest) as (results & Ht & ->).
    eexists (Some _ :: results). split; [|reflexivity].
    eapply page_trace_cons; [|exact Ht].
    unfold convert_page. rewrite Eskip, Epbm, Ejbig. reflexivity.
Qed.

Lemma page_trace_unique (enc : jbg_encoder) (pages : list page) (h : heap)
    (results results' : list (option emitted_page)) :
  page_trace enc pages h results -> page_trace enc pages h results' ->
  results' = results.
Proof.
  intros Ht. revert results'.
  induction Ht as [|p pages h h' result results Ec _ IH]; intros results' Ht'.
  - by inversion Ht'.
  - inversion Ht' as [|? ? ? h'' result' results'' Ec' Ht'']; subst.
    rewrite Ec in Ec'. injection Ec' as <- <-. f_equal. by apply IH.
Qed.

Lemma page_trace_length (enc : jbg_encoder) (pages : list page) (h : heap)
    (results : list (option emitted_page)) :
  page_trace enc pages h results -> length results = length pages.
Proof. induction 1; cbn [length]; congruence. Qed.

(** X7.  A run that ends has converted the pages of its raster stream one
    by one, in the order of the stream, each with the allocator the pages
    before it have left, and has written the frames of the results in that
    order: every page has one result, so at most one frame, made from its
    own header and pixel lines; no page is framed twice and no frame comes
    before the frame of an earlier page.  The results, and with them the
    output, are the only ones the pages and the allocator allow.  Each
    framed page has lines and
    bytes per line, is announced with the width and height of its header,
    and with the length of its payload. *)
Theorem frames_follow_page_order (enc : jbg_encoder) (w : world)
    (pages : list page) (status : Z) (out : list write)
    (Hinput : job_input w = Some pages)
    (Hrun : main enc w = Done (status, out)) :
  exists results,
    page_trace enc pages (allocations w) results
    /\ (forall results',
          page_trace enc pages (allocations w) results' ->
          results' = results)
    /\ length results = length pages
    /\ out = job_stream (now w) (user_name w) (omap id results)
    /\ map ep_header (omap id results) `sublist_of` map fst pages
    /\ Forall (fun ep =>
                 ep_width ep = cupsWidth (ep_header ep)
                 /\ ep_height ep = cupsHeight (ep_header ep)
                 /\ cupsHeight (ep_header ep) <> 0
                 /\ cupsBytesPerLine (ep_header ep) <> 0
                 /\ ep_size ep = Z.of_nat (length (ep_jbig ep)))
         (omap id results).
Proof.
  rewrite main_spec in Hrun. unfold emitted in Hrun. rewrite Hinput in Hrun.
  destruct (emitted_pages enc pages (allocations w)) as [eps|] eqn:E;
    [|discriminate Hrun].
  destruct (_ <=? INT_MAX); [|discriminate Hrun].
  assert (Hout : out = job_stream (now w) (user_name w) eps) by congruence.
  destruct (emitted_pages_trace enc pages _ _ E) as (results & Ht & Heps).
  destruct (emitted_pages_order enc pages _ _ E) as [Hsub Hall].
  subst eps. exists results. split; [exact Ht|].
  split; [intros results' Ht'; by eapply page_trace_unique|].
  split; [by eapply page_trace_length|]. by split.
Qed.

Lemma frames_follow_page_order_witness :
  exists results,
    page_trace store_encoder [(gray_header, gray_lines)] [] results
    /\ length results = 1%nat
    /\ job_header "2024/01/01 00:00:00" "alice"
       ++ frame_of gray_emitted ++ job_trailer
       = job_stream "2024/01/01 00:00:00" "alice" (omap id results).
Proof.
  destruct (frames_follow_page_order store_encoder gray_world
              [(gray_header, gray_lines)] 0
              (job_header "2024/01/01 00:00:00" "alice"
               ++ frame_of gray_emitted ++ job_trailer))
    as (results & Ht & _ & Hlen & Hout & _).
  - reflexivity.
  - reflexivity.
  - exists results. split; [exact Ht|]. split; [exact Hlen | exact Hout].
Defined.

(** ** The bytes of the stream *)

Lemma stream_app (out1 out2 : list write) :
  stream (out1 ++ out2) = stream out1 ++ stream out2.
Proof. unfold stream. by rewrite map_app, concat_app. Qed.

(** X8.  When a run exits with status 0, the bytes it has written begin
    with [ESC %-12345X @PJL CR LF] and end with [@PJL EOJ CR LF
    ESC %-12345X], no line end after the closing sequence. *)
Theorem stream_is_bracketed (enc : jbg_encoder) (w : world)
    (out : list write)
    (Hrun : main enc w = Done (0, out)) :
  exists middle,
    stream out = (UEL ++ PJL_LINE) ++ middle ++ (EOJ_LINE ++ UEL).
Proof.
  rewrite main_spec in Hrun.
  destruct (emitted enc w) as [eps|]; [|discriminate Hrun].
  destruct (_ <=? INT_MAX); [|discriminate Hrun].
  destruct eps as [|ep eps]; [discriminate Hrun|].
  assert (Hout : out = job_stream (now w) (user_name w) (ep :: eps))
    by congruence.
  subst out. unfold job_stream. rewrite !stream_app.
  exists (stream (drop 1 (job_header (now w) (user_name w)))
          ++ stream (concat (map frame_of (ep :: eps)))).
  rewrite <- !app_assoc. reflexivity.
Qed.

Lemma stream_is_bracketed_witness :
  exists middle,
    stream (job_header "2024/01/01 00:00:00" "alice"
            ++ frame_of gray_emitted ++ job_trailer)
    = (UEL ++ PJL_LINE) ++ middle ++ (EOJ_LINE ++ UEL).
Proof.
  apply (stream_is_bracketed store_encoder gray_world). reflexivity.
Defined.

(** ** Other depths, widths and color spaces *)

(** X5.  On a page of a depth other than 1 and 8 the conversion is always
    defined and the bitmap fully packed.  Each row of a line read holds
    the first bytes of the line, as many as the shorter of the bitmap
    stride and the line; the bytes of the row beyond the line, and the rows
    from the first short read on, are zero. *)
Theorem unsupported_depth_copy (header : cups_page_header2_t)
    (ras : cups_raster_t) (h : heap)
    (Hwf : header_wf header)
    (Hnot1 : cupsBitsPerPixel header <> 1)
    (Hnot8 : cupsBitsPerPixel header <> 8)
    (Hpbm : (alloc h).1 = true)
    (Hbuf : (alloc (alloc h).2).1 = true) :
  let stride := pbm_stride_of header in
  let lines := lines_read (Z.to_nat (cupsHeight header))
                 (cupsBytesPerLine header) ras in
  exists page,
    (raster_to_pbm header ras h).1 = Done (Some page)
    /\ fully_packed header (pbm_data page)
    /\ (forall (r : nat) line i,
          lines !! r = Some line -> 0 <= i < stride ->
          byte_at (pbm_data page) (Z.of_nat r * stride + i)
          = if i <? cupsBytesPerLine header then byte_at line i else 0)
    /\ (forall j, Z.of_nat (length lines) * stride <= j ->
          byte_at (pbm_data page) j = 0).
Proof.
  intros stride lines.
  assert (Hfit : line_fits header).
  { unfold line_fits.
    destruct (Z.eqb_spec (cupsBitsPerPixel header) 1); [done|].
    destruct (Z.eqb_spec (cupsBitsPerPixel header) 8); done. }
  destruct (raster_to_pbm_spec header ras h Hwf Hfit Hpbm Hbuf)
    as (pbm & E & L & Rows & Rest).
  eexists. rewrite E. split; [reflexivity|]. cbn [pbm_data].
  split; [exact L|]. split; [|exact Rest].
  intros r line i Hr Hi. specialize (Rows r line i Hr Hi).
  unfold row_byte_ok in Rows.
  destruct (Z.eqb_spec (cupsBitsPerPixel header) 1); [done|].
  destruct (Z.eqb_spec (cupsBitsPerPixel header) 8); [done|].
  exact Rows.
Qed.

Lemma nibble_header_wf : header_wf nibble_header.
Proof. constructor; evaluate. Qed.

Lemma unsupported_depth_copy_witness :
  exists page,
    (raster_to_pbm nibble_header nibble_lines []).1 = Done (Some page)
    /\ byte_at (pbm_data page) 1 = 2.
Proof.
  destruct (unsupported_depth_copy nibble_header nibble_lines [])
    as (page & E & _ & Hrow & _).
  - exact nibble_header_wf.
  - evaluate.
  - evaluate.
  - reflexivity.
  - reflexivity.
  - exists page. split; [exact E|].
    apply (Hrow 0%nat [1; 2; 3; 4; 5; 6; 7; 8] 1); [reflexivity|evaluate].
Defined.

(** X10.  A page without columns is not an empty page for the loop: with
    lines and bytes per line it is converted, whatever its depth and its
    lines, into a bitmap of no bytes, and once that is compressed the loop
    emits its frame. *)
Theorem zero_width_page (header : cups_page_header2_t)
    (ras : cups_raster_t) (h : heap)
    (Hwf : header_wf header)
    (Hwidth : cupsWidth header = 0)
    (Hpbm : (alloc h).1 = true)
    (Hbuf : (alloc (alloc h).2).1 = true) :
  raster_to_pbm header ras h
  = (Done (Some {| pbm_data := []; out_width := 0;
                   out_height := cupsHeight header; out_size := 0 |}),
     (alloc (alloc h).2).2)
  /\ (forall enc timestamp user pages page_count out jbig jbig_size h',
        cupsBytesPerLine header <> 0 -> cupsHeight header <> 0 ->
        pbm_to_jbig enc [] 0 (cupsHeight header) (alloc (alloc h).2).2
        = (Done (Some (jbig, jbig_size)), h') ->
        process_pages enc timestamp user ((header, ras) :: pages)
          page_count h out
        = (page_count' ← int_incr page_count;
           process_pages enc timestamp user pages page_count' h'
             (out ++ (if page_count =? 0
                      then job_header timestamp user else [])
                  ++ page_frame header 0 (cupsHeight header) jbig
                       jbig_size))).
Proof.
  assert (Hstride : pbm_stride_of header = 0).
  { unfold pbm_stride_of. rewrite Hwidth. reflexivity. }
  assert (Hfit : line_fits header).
  { unfold line_fits. rewrite Hstride, Hwidth.
    pose proof (wf_bpl _ Hwf) as [Hb _].
    destruct (_ =? 1); [done|]. destruct (_ =? 8); [|done].
    split; [done | reflexivity]. }
  destruct (raster_to_pbm_spec header ras h Hwf Hfit Hpbm Hbuf)
    as (pbm & E & L & _).
  rewrite Hstride, Hwidth in *. rewrite Z.mul_0_l in *.
  destruct pbm as [|b pbm]; [|cbn [length] in L; lia].
  split; [exact E|].
  intros enc timestamp user pages pc out jbig jbig_size h' Hbpl Hh Hjbig.
  cbn [process_pages].
  destruct (Z.eqb_spec (cupsBytesPerLine header) 0); [done|].
  destruct (Z.eqb_spec (cupsHeight header) 0); [done|].
  cbn [orb]. rewrite E.
  cbn [mbind outcome_bind pbm_data out_width out_height].
  rewrite Hjbig. reflexivity.
Qed.

Lemma thin_header_wf : header_wf thin_header.
Proof. constructor; evaluate. Qed.

Lemma zero_width_page_witness :
  raster_to_pbm thin_header [[1; 2; 3; 4]; [5; 6; 7; 8]; [9; 9; 9; 9]] []
  = (Done (Some {| pbm_data := []; out_width := 0; out_height := 3;
                   out_size := 0 |}), []).
Proof.
  destruct (zero_width_page thin_header
              [[1; 2; 3; 4]; [5; 6; 7; 8]; [9; 9; 9; 9]] []) as [E _].
  - exact thin_header_wf.
  - reflexivity.
  - reflexivity.
  - reflexivity.
  - exact E.
Defined.

(** ** The paper name *)


(** The two classifications are opposite. *)
Lemma is_mark_opposite (cspace_w cspace_k v : Z) :
  white_style cspace_w -> ~ white_style cspace_k ->
  is_mark cspace_w v = negb (is_mark cspace_k v).
Proof.
  intros Hw Hk. unfold is_mark.
  destruct (decide (white_style cspace_w)); [|done].
  destruct (decide (white_style cspace_k)); [done|].
  destruct (decide (v < 128)) as [Hv|Hv].
  - rewrite bool_decide_eq_true_2, bool_decide_eq_false_2 by lia. done.
  - rewrite bool_decide_eq_false_2, bool_decide_eq_true_2 by lia. done.
Qed.

Lemma with_cspace_wf (header : cups_page_header2_t) (cspace : Z) :
  header_wf header -> white_style cspace ->
  header_wf (with_cspace header cspace).
Proof.
  intros [] Hw. constructor; cbn; try done.
  destruct Hw as [-> | ->]; evaluate.
Qed.

(** X11.  The polarity of the color space is resolved pixel by pixel:
    the same 8-bit lines read as a W-style page give, for every pixel of
    every line read, the opposite bit of the one they give read as a
    K-style page. *)
Theorem polarity_inverts_pixels (header : cups_page_header2_t) (cspace : Z)
    (ras : cups_raster_t) (h : heap)
    (Hwf : header_wf header)
    (Hbpp : cupsBitsPerPixel header = 8)
    (Hline : cupsWidth header <= cupsBytesPerLine header)
    (Hwidth : cupsWidth header + 7 < 2 ^ 32)
    (Hk : ~ white_style (cupsColorSpace header))
    (Hw : white_style cspace)
    (Hpbm : (alloc h).1 = true)
    (Hbuf : (alloc (alloc h).2).1 = true) :
  exists page_k page_w,
    (raster_to_pbm header ras h).1 = Done (Some page_k)
    /\ (raster_to_pbm (with_cspace header cspace) ras h).1
       = Done (Some page_w)
    /\ forall (r : nat) line x,
         lines_read (Z.to_nat (cupsHeight header))
           (cupsBytesPerLine header) ras !! r = Some line ->
         0 <= x < cupsWidth header ->
         Z.testbit
           (byte_at (pbm_data page_w)
              (Z.of_nat r * pbm_stride_of header + x / 8))
           (7 - x mod 8)
         = negb (Z.testbit
                   (byte_at (pbm_data page_k)
                      (Z.of_nat r * pbm_stride_of header + x / 8))
                   (7 - x mod 8)).
Proof.
  assert (Hfit : line_fits header).
  { unfold line_fits. rewrite Hbpp. cbn. done. }
  assert (Hfit' : line_fits (with_cspace header cspace)).
  { unfold line_fits. cbn. rewrite Hbpp. cbn. done. }
  destruct (raster_to_pbm_spec header ras h Hwf Hfit Hpbm Hbuf)
    as (pbm_k & Ek & _ & Rows_k & _).
  destruct (raster_to_pbm_spec (with_cspace header cspace) ras h
              (with_cspace_wf header cspace Hwf Hw) Hfit' Hpbm Hbuf)
    as (pbm_w & Ew & _ & Rows_w & _).
  eexists _, _. rewrite Ek, Ew. split; [reflexivity|].
  split; [reflexivity|]. cbn [pbm_data].
  intros r line x Hr Hx.
  destruct (pbm_stride_covers header) as [_ Hcov]; [lia|done|].
  assert (Hi : 0 <= x / 8 < pbm_stride_of header).
  { split; [apply Z.div_pos; lia | apply Z.div_lt_upper_bound; lia]. }
  rewrite (threshold_row_bit header line 0 _ x Hbpp ltac:(lia)
             (Rows_k r line (x / 8) Hr Hi)).
  pose proof (Rows_w r line (x / 8) Hr Hi) as Rw.
  change (pbm_stride_of (with_cspace header cspace))
    with (pbm_stride_of header) in Rw.
  rewrite (threshold_row_bit (with_cspace header cspace) line 0 _ x Hbpp
             ltac:(lia) Rw).
  cbn [cupsWidth with_cspace]. rewrite bool_decide_eq_true_2 by lia.
  rewrite !black_is_mark. cbn [cupsColorSpace with_cspace andb].
  by apply is_mark_opposite.
Qed.

Lemma polarity_inverts_pixels_witness :
  exists page_k page_w,
    (raster_to_pbm gray_header gray_lines []).1 = Done (Some page_k)
    /\ (raster_to_pbm (with_cspace gray_header CUPS_CSPACE_W) gray_lines
          []).1 = Done (Some page_w)
    /\ Z.testbit (byte_at (pbm_data page_w) 0) 5
       = negb (Z.testbit (byte_at (pbm_data page_k) 0) 5).
Proof.
  destruct (polarity_inverts_pixels gray_header CUPS_CSPACE_W gray_lines [])
    as (page_k & page_w & Ek & Ew & Hbits).
  - exact gray_header_wf.
  - reflexivity.
  - evaluate.
  - evaluate.
  - intros [Hc|Hc]; discriminate Hc.
  - by left.
  - reflexivity.
  - reflexivity.
  - exists page_k, page_w. split; [exact Ek|]. split; [exact Ew|].
    apply (Hbits 0%nat [0; 127; 128; 255; 0; 0; 0; 0; 200; 200] 2);
      [reflexivity | evaluate].
Defined.

(** ** The frames in the stream *)

Lemma payloads_app (out1 out2 : list write) :
  payloads (out1 ++ out2) = payloads out1 ++ payloads out2.
Proof. unfold payloads. apply omap_app. Qed.

Lemma frame_counts (ep : emitted_page) :
  occurrences page_start (frame_of ep) = 1%nat
  /\ occurrences page_end (frame_of ep) = 1%nat
  /\ payloads (frame_of ep)
     = [take (Z.to_nat (ep_size ep)) (ep_jbig ep)].
Proof. repeat split. Qed.

Lemma frames_counts (eps : list emitted_page) :
  occurrences page_start (concat (map frame_of eps)) = length eps
  /\ occurrences page_end (concat (map frame_of eps)) = length eps
  /\ payloads (concat (map frame_of eps))
     = map (fun ep => take (Z.to_nat (ep_size ep)) (ep_jbig ep)) eps.
Proof.
  induction eps as [|ep eps (IH1 & IH2 & IH3)]; [done|].
  cbn [map concat length]. rewrite !occurrences_app, payloads_app.
  destruct (frame_counts ep) as (F1 & F2 & F3).
  rewrite F1, F2, F3, IH1, IH2, IH3. done.
Qed.

Lemma job_envelope_counts (timestamp user : string) :
  occurrences page_start (job_header timestamp user) = 0%nat
  /\ occurrences page_end (job_header timestamp user) = 0%nat
  /\ payloads (job_header timestamp user) = []
  /\ occurrences page_start job_trailer = 0%nat
  /\ occurrences page_end job_trailer = 0%nat
  /\ payloads job_trailer = [].
Proof. repeat split. Qed.

(** X12.  In the stream of a run that ends, every page frame opens with
    one PAGESTATUS=START line and closes with one PAGESTATUS=END line, and
    carries one write of raw bytes, its whole payload: the stream has as
    many of each as pages were emitted, and the raw writes are the
    payloads of the emitted pages in order. *)
Theorem frames_are_balanced (enc : jbg_encoder) (w : world) (status : Z)
    (out : list write)
    (Hrun : main enc w = Done (status, out)) :
  exists eps,
    emitted enc w = Done eps
    /\ occurrences page_start out = length eps
    /\ occurrences page_end out = length eps
    /\ payloads out = map ep_jbig eps.
Proof.
  rewrite main_spec in Hrun.
  destruct (emitted enc w) as [eps|] eqn:E; [|discriminate Hrun].
  destruct (_ <=? INT_MAX); [|discriminate Hrun].
  assert (Hout : out = job_stream (now w) (user_name w) eps) by congruence.
  subst out. exists eps. split; [reflexivity|].
  assert (Hwhole : map (fun ep => take (Z.to_nat (ep_size ep)) (ep_jbig ep))
                     eps = map ep_jbig eps).
  { unfold emitted in E. destruct (job_input w) as [pages|].
    - destruct (emitted_pages_order enc pages _ _ E) as [_ Hall].
      apply map_ext_Forall. eapply Forall_impl; [exact Hall|].
      intros ep (_ & _ & _ & _ & Hsize). cbn beta.
      rewrite Hsize, Nat2Z.id. by rewrite take_ge.
    - by injection E as <-. }
  destruct eps as [|ep eps]; [done|].
  destruct (frames_counts (ep :: eps)) as (F1 & F2 & F3).
  destruct (job_envelope_counts (now w) (user_name w))
    as (H1 & H2 & H3 & T1 & T2 & T3).
  unfold job_stream.
  rewrite !occurrences_app, !payloads_app, F1, F2, F3, H1, H2, H3, T1, T2,
    T3, Hwhole, app_nil_r.
  repeat split; lia.
Qed.

Lemma frames_are_balanced_witness :
  exists eps,
    emitted store_encoder gray_world = Done eps
    /\ occurrences page_start
         (job_header "2024/01/01 00:00:00" "alice"
          ++ frame_of gray_emitted ++ job_trailer) = length eps.
Proof.
  destruct (frames_are_balanced store_encoder gray_world 0
              (job_header "2024/01/01 00:00:00" "alice"
               ++ frame_of gray_emitted ++ job_trailer))
    as (eps & E & Hstart & _).
  - reflexivity.
  - exists eps. split; [exact E | exact Hstart].
Defined.
